(** * The persistence notebook of scrapy-xpath, embedded and verified

    [persistence.ipynb] is a linear notebook: it loads a saved HTML page,
    picks a table by position, reads two or three text fields out of every
    row and writes them to a JSON file, a CSV file and SQLite tables.

    The embedding follows the notebook cell by cell.  A code cell number
    [k] below is the index of the cell in the notebook's cell list (markdown
    cells are counted, the first cell has index 0); a Python variable keeps
    its name.  What lies under the notebook is taken as the platform and
    modelled by its observable behaviour:
    - the HTML parser: a cell receives the parsed document as a [node];
    - [json.dump] and [csv.writer]: a file holds the object, or the
      sequence of records, that was written to it;
    - SQLite and the [sqlite3] module: tables of rows, the implicit
      transaction that [sqlite3] opens before an INSERT, commit, and a
      parser for the three statement forms that the notebook sends;
    - [print]: cell 2 returns the lines it prints; the other prints are
      left out. *)

From Stdlib Require Import Ascii String ZArith.
From stdpp Require Import gmap strings list fin_maps.

#[local] Set Warnings "-register-all".

(** ** Exceptions and results *)

Inductive exn :=
  | IndexError
  | AttributeError
  | OperationalError
  | ProgrammingError
  | NotSupportedError.

#[global] Instance exn_eq_dec : EqDecision exn.
Proof. solve_decision. Defined.

Inductive outcome (A : Type) :=
  | Ok (a : A)
  | Raise (e : exn).
Arguments Ok {A} a.
Arguments Raise {A} e.

#[global] Instance outcome_ret : MRet outcome := λ A a, Ok a.
#[global] Instance outcome_bind : MBind outcome := λ A B f m,
  match m with
  | Ok a => f a
  | Raise e => Raise e
  end.

(** [l[i]] on a Python list, for an index that is not negative. *)
Definition py_index {A} (l : list A) (i : nat) : outcome A :=
  match l !! i with
  | Some x => Ok x
  | None => Raise IndexError
  end.

(** A [for] loop whose body can raise: the first exception ends the loop. *)
Fixpoint for_each {A S} (body : S → A → outcome S) (l : list A) (s : S) : outcome S :=
  match l with
  | [] => Ok s
  | x :: l' => s' ← body s x; for_each body l' s'
  end.

(** ** Strings

    A Python [str] is a [string] whose characters stand for the code points
    below 256.  [isspace] is [str.isspace] on that range, and [strip] is
    [str.strip()] without argument. *)

Definition isspace (c : ascii) : bool :=
  let n := nat_of_ascii c in
  (Nat.leb 9 n && Nat.leb n 13) || (Nat.leb 28 n && Nat.leb n 32)
  || Nat.eqb n 133 || Nat.eqb n 160.

Fixpoint lstrip (s : string) : string :=
  match s with
  | EmptyString => EmptyString
  | String c s' => if isspace c then lstrip s' else s
  end.

Fixpoint rstrip (s : string) : string :=
  match s with
  | EmptyString => EmptyString
  | String c s' =>
      match rstrip s' with
      | EmptyString => if isspace c then EmptyString else String c EmptyString
      | r => String c r
      end
  end.

Definition strip (s : string) : string := rstrip (lstrip s).

(** ** The parsed document and the XPath queries of the notebook

    Attributes are left out: no query of the notebook reads one. *)

Inductive node :=
  | Element (tag : string) (children : list node)
  | Text (data : string).

Definition children (n : node) : list node :=
  match n with
  | Element _ cs => cs
  | Text _ => []
  end.

Definition tag_is (t : string) (n : node) : bool :=
  match n with
  | Element t' _ => String.eqb t t'
  | Text _ => false
  end.

(** All nodes below [n], in document order. *)
Fixpoint descendants (n : node) : list node :=
  match n with
  | Element _ cs => c ← cs; c :: descendants c
  | Text _ => []
  end.

(** One location step of a relative path: [t] or [t[k]]. *)
Inductive step :=
  | Child (t : string)
  | ChildAt (t : string) (k : nat).

Definition eval_step (st : step) (n : node) : list node :=
  match st with
  | Child t => filter (λ c, tag_is t c) (children n)
  | ChildAt t k =>
      match k with
      | 0 => []
      | S i => take 1 (drop i (filter (λ c, tag_is t c) (children n)))
      end
  end.

(** [sel.xpath(path)] on a selector list: the results of every selector,
    one after the other. *)
Definition xpath (path : list step) (sel : list node) : list node :=
  foldl (λ s st, s ≫= eval_step st) sel path.

(** [response.xpath('//table')]. *)
Definition xpath_tables (response : node) : list node :=
  filter (λ c, tag_is "table" c) (response :: descendants response).

(** [tr.xpath(path + '/text()').extract()]: the character data of the text
    children of the nodes that [path] selects under [tr]. *)
Definition text_children (n : node) : list string :=
  children n ≫= λ c, match c with Text d => [d] | Element _ _ => [] end.

Definition extract_text (path : list step) (tr : node) : list string :=
  xpath path [tr] ≫= text_children.

(** [.extract_first()]: [None] when nothing was selected. *)
Definition extract_first (l : list string) : option string := head l.

(** ** Cell 2: the medal table

    [table = response.xpath('//table')[1].xpath('tbody')], then one printed
    line per row; the cell returns [table] and the pairs it prints. *)

Definition table_at (response : node) (i : nat) : outcome (list node) :=
  t ← py_index (xpath_tables response) i;
  Ok (xpath [Child "tbody"] [t]).

Definition cell2 (response : node) : outcome (list node * list (string * string)) :=
  table ← table_at response 1;
  printed ← for_each (λ out tr,
      medal ← py_index (extract_text [ChildAt "td" 1; Child "b"] tr) 0;
      athlete ← py_index (extract_text [ChildAt "td" 2; Child "a"] tr) 0;
      Ok (out ++ [(medal, athlete)]))
    (xpath [Child "tr"] table) [];
  Ok (table, printed).

(** ** Cells 4 and 5: the JSON object

    A Python [dict] keeps its keys in insertion order; assigning to a key
    that is present replaces the value where it is. *)

Abbreviation pydict := (list (string * string)).

Fixpoint dict_set (k v : string) (d : pydict) : pydict :=
  match d with
  | [] => [(k, v)]
  | (k', v') :: d' =>
      if String.eqb k k' then (k, v) :: d' else (k', v') :: dict_set k v d'
  end.

Fixpoint dict_get (k : string) (d : pydict) : option string :=
  match d with
  | [] => None
  | (k', v') :: d' => if String.eqb k k' then Some v' else dict_get k d'
  end.

Definition dict_keys (d : pydict) : list string := d.*1.

Definition medal_of (tr : node) : outcome string :=
  py_index (extract_text [Child "td"; Child "b"] tr) 0.

Definition athlete_of (tr : node) : outcome string :=
  py_index (extract_text [Child "td"; Child "a"] tr) 0.

Definition cell4_body (scrapped_data : pydict) (tr : node) : outcome pydict :=
  medal ← medal_of tr;
  athlete ← athlete_of tr;
  Ok (dict_set medal athlete scrapped_data).

Definition cell4 (table : list node) : outcome pydict :=
  for_each cell4_body (xpath [Child "tr"] table) [].

(** ** Cell 7: the CSV records *)

Definition column_names : list string := ["Medal"; "Athlete"].

Definition cell7_body (rows : list (list string)) (tr : node)
  : outcome (list (list string)) :=
  medal ← medal_of tr;
  athlete ← athlete_of tr;
  Ok (rows ++ [[medal; athlete]]).

Definition cell7 (table : list node) : outcome (list (list string)) :=
  for_each cell7_body (xpath [Child "tr"] table) [].

(** ** SQL text

    The notebook sends SQLite three forms of statement.  [parse_sql] reads
    them from the text, as SQLite does: keywords in either case, blanks and
    line ends between tokens. *)

Definition upper_ascii (c : ascii) : ascii :=
  let n := nat_of_ascii c in
  if Nat.leb 97 n && Nat.leb n 122 then ascii_of_nat (n - 32) else c.

Fixpoint upper (s : string) : string :=
  match s with
  | EmptyString => EmptyString
  | String c s' => String (upper_ascii c) (upper s')
  end.

Definition sql_space (c : ascii) : bool :=
  let n := nat_of_ascii c in
  (Nat.leb 9 n && Nat.leb n 13) || Nat.eqb n 32.

Definition sql_punct (c : ascii) : bool :=
  bool_decide (c ∈ ["("; ")"; ","; "?"; "*"]%char).

Definition flush (word : string) : list string :=
  if String.eqb word "" then [] else [word].

Fixpoint lex (word : string) (s : string) : list string :=
  match s with
  | EmptyString => flush word
  | String c s' =>
      if sql_space c then flush word ++ lex "" s'
      else if sql_punct c then flush word ++ String c "" :: lex "" s'
      else lex (word +:+ String c "") s'
  end.

Definition kw (k tok : string) : bool := String.eqb k (upper tok).

Record column := Column {
  col_name : string;
  col_type : string;
  col_pk : bool;
}.

Inductive sql_expr :=
  | Placeholder
  | Literal (tok : string).

Inductive stmt :=
  | CreateTable (if_not_exists : bool) (name : string) (cols : list column)
  | InsertInto (name : string) (cols : list string) (vals : list sql_expr)
  | SelectAll (name : string).

Fixpoint until_close (toks : list string) : option (list string * list string) :=
  match toks with
  | [] => None
  | t :: toks' =>
      if String.eqb t ")" then Some ([], toks')
      else '(inner, rest) ← until_close toks'; Some (t :: inner, rest)
  end.

Fixpoint split_commas (toks : list string) : list (list string) :=
  match toks with
  | [] => [[]]
  | t :: toks' =>
      if String.eqb t "," then [] :: split_commas toks'
      else match split_commas toks' with
           | g :: gs => (t :: g) :: gs
           | [] => [[t]]
           end
  end.

(** [( g1 , g2 , ... )] at the head of [toks], and what follows it. *)
Definition paren_list (toks : list string)
  : option (list (list string) * list string) :=
  match toks with
  | t :: toks' =>
      if String.eqb t "(" then
        '(inner, rest) ← until_close toks'; Some (split_commas inner, rest)
      else None
  | [] => None
  end.

Definition parse_column (g : list string) : option column :=
  match g with
  | [n] => Some (Column n "" false)
  | [n; ty] => Some (Column n ty false)
  | [n; ty; p; k] =>
      if kw "PRIMARY" p && kw "KEY" k then Some (Column n ty true) else None
  | _ => None
  end.

Definition parse_name (g : list string) : option string :=
  match g with
  | [n] => Some n
  | _ => None
  end.

Definition parse_expr (g : list string) : option sql_expr :=
  match g with
  | [t] => Some (if String.eqb t "?" then Placeholder else Literal t)
  | _ => None
  end.

Definition parse_create (ine : bool) (name : string) (rest : list string)
  : option stmt :=
  '(groups, tail) ← paren_list rest;
  match tail with
  | [] => cols ← mapM parse_column groups; Some (CreateTable ine name cols)
  | _ :: _ => None
  end.

Definition parse_insert (name : string) (rest : list string) : option stmt :=
  '(cgroups, rest1) ← paren_list rest;
  cols ← mapM parse_name cgroups;
  match rest1 with
  | v :: rest2 =>
      if kw "VALUES" v then
        '(vgroups, tail) ← paren_list rest2;
        match tail with
        | [] => vals ← mapM parse_expr vgroups; Some (InsertInto name cols vals)
        | _ :: _ => None
        end
      else None
  | [] => None
  end.

Definition parse_tokens (toks : list string) : option stmt :=
  match toks with
  | a :: b :: rest =>
      if kw "CREATE" a && kw "TABLE" b then
        match rest with
        | i :: n :: e :: name :: rest' =>
            if kw "IF" i && kw "NOT" n && kw "EXISTS" e
            then parse_create true name rest'
            else parse_create false i (n :: e :: name :: rest')
        | name :: rest' => parse_create false name rest'
        | [] => None
        end
      else if kw "INSERT" a && kw "INTO" b then
        match rest with
        | name :: rest' => parse_insert name rest'
        | [] => None
        end
      else if kw "SELECT" a && String.eqb b "*" then
        match rest with
        | [f; name] => if kw "FROM" f then Some (SelectAll name) else None
        | _ => None
        end
      else None
  | _ => None
  end.

Definition parse_sql (sql : string) : option stmt := parse_tokens (lex "" sql).

(** The statements of the notebook, as written in the cells. *)

Definition cell10_db_table : string :=
  "CREATE TABLE IF NOT EXISTS results (id integer primary key, medal TEXT, athlete TEXT)".

Definition cell11_query : string :=
  "INSERT INTO results(medal, athlete) VALUES(?, ?)".

Definition cell13_query : string := "select * from results".

Definition cell14_create : string :=
  "
CREATE TABLE IF NOT EXISTS high_jump_results (
    rank TEXT,
    athlete TEXT
)
".

Definition cell15_insert : string :=
  "INSERT INTO high_jump_results (rank, athlete) VALUES (?, ?)".

Definition cell16_query : string := "select * from high_jump_results".

Definition cell18_db_table : string :=
  "CREATE TABLE IF NOT EXISTS heights (id integer primary key, rank TEXT, athlete TEXT, height TEXT)".

Definition cell19_insert : string :=
  "INSERT INTO heights (rank, athlete, height) VALUES (?, ?, ?)".

Definition cell20_query : string := "select * from heights".

(** ** The database

    A value stored in a table or bound to a placeholder: [None] (SQL NULL),
    an integer or a text.  The rows of a table are kept in rowid order,
    which is the order in which [select *] returns them. *)

Inductive value :=
  | VNone
  | VInt (z : Z)
  | VStr (s : string).

#[global] Instance value_eq_dec : EqDecision value.
Proof. solve_decision. Defined.

Record sqltable := SqlTable {
  tbl_cols : list column;
  tbl_rows : list (list value);
}.

Abbreviation database := (gmap string sqltable).

(** A column declared [INTEGER PRIMARY KEY] is the rowid of its table:
    SQLite fills it on insert with one more than the largest rowid in the
    table, whatever its sign, and with 1 in an empty table.  Rowids are
    64-bit integers: when the largest is 2^63 - 1, SQLite looks for an
    unused rowid at random, which [next_rowid] does not follow; a statement
    that names an identity says that there is room below that bound
    ([has_room]). *)
Definition is_rowid_alias (c : column) : bool :=
  col_pk c && String.eqb (upper (col_type c)) "INTEGER".

Definition rowid_of (cols : list column) (row : list value) : Z :=
  match list_find (λ cv, is_rowid_alias cv.1) (zip cols row) with
  | Some (_, (_, VInt z)) => z
  | _ => 0%Z
  end.

Definition next_rowid (t : sqltable) : Z :=
  match rowid_of (tbl_cols t) <$> tbl_rows t with
  | [] => 1%Z
  | z :: zs => (1 + foldr Z.max z zs)%Z
  end.

Fixpoint assoc {V} (k : string) (kvs : list (string * V)) : option V :=
  match kvs with
  | [] => None
  | (k', v) :: kvs' => if String.eqb k k' then Some v else assoc k kvs'
  end.

(** The row that [INSERT INTO t (cols) VALUES (vals)] adds: a named column
    takes its value, the rowid column the next rowid, any other column
    NULL. *)
Definition new_row (t : sqltable) (cols : list string) (vals : list value)
  : list value :=
  (λ c, match assoc (col_name c) (zip cols vals) with
        | Some v => v
        | None => if is_rowid_alias c then VInt (next_rowid t) else VNone
        end) <$> tbl_cols t.

Definition is_placeholder (e : sql_expr) : bool :=
  match e with
  | Placeholder => true
  | Literal _ => false
  end.

(** The notebook binds every value through a placeholder and never names
    the rowid column in an INSERT; a statement that does otherwise is
    outside the model and reported as [NotSupportedError]. *)
Definition execute_insert (db : database) (name : string) (cols : list string)
    (vals : list sql_expr) (params : list value) : outcome database :=
  match db !! name with
  | None => Raise OperationalError
  | Some t =>
      if negb (forallb (λ c, bool_decide (c ∈ col_name <$> tbl_cols t)) cols)
      then Raise OperationalError
      else if negb (Nat.eqb (length cols) (length vals))
      then Raise OperationalError
      else if negb (forallb is_placeholder vals)
      then Raise NotSupportedError
      else if negb (Nat.eqb (length vals) (length params))
      then Raise ProgrammingError
      else if existsb (λ c, is_rowid_alias c && bool_decide (col_name c ∈ cols))
                (tbl_cols t)
      then Raise NotSupportedError
      else Ok (<[name := SqlTable (tbl_cols t)
                           (tbl_rows t ++ [new_row t cols params])]> db)
  end.

(** ** The world of a run: files, database files, and the statements sent

    [fs] holds the JSON and CSV files by path, [dbs] the committed content
    of the database files by path, and [sql_log] every call of
    [cursor.execute], oldest first, with the SQL text and the bound
    values. *)

Inductive file :=
  | JsonFile (obj : pydict)
  | CsvFile (records : list (list string)).

Record world := World {
  fs : gmap string file;
  dbs : gmap string database;
  sql_log : list (string * list value);
}.

Definition M (A : Type) : Type := world → outcome A * world.

#[global] Instance M_ret : MRet M := λ A a w, (Ok a, w).
#[global] Instance M_bind : MBind M := λ A B f m w,
  match m w with
  | (Ok a, w') => f a w'
  | (Raise e, w') => (Raise e, w')
  end.

Definition lift {A} (o : outcome A) : M A := λ w, (o, w).

Fixpoint for_each_M {A S} (body : S → A → M S) (l : list A) (s : S) : M S :=
  match l with
  | [] => mret s
  | x :: l' => s' ← body s x; for_each_M body l' s'
  end.

(** [try: m  except e: handler]. *)
Definition try_except {A} (m : M A) (e : exn) (handler : M A) : M A := λ w,
  match m w with
  | (Raise e', w') => if decide (e' = e) then handler w' else (Raise e', w')
  | r => r
  end.

(** [open(path, "w")] and a write: the file holds what was written. *)
Definition write_file (path : string) (f : file) : M unit := λ w,
  (Ok (), World (<[path := f]> (fs w)) (dbs w) (sql_log w)).

(** ** Connections

    A connection is on a database file and holds the transaction it has
    open, if any: the working copy of the database and the statements
    executed in it (those not committed yet).  A cursor is a handle on its
    connection. *)

Record txn := Txn {
  txn_db : database;
  txn_stmts : list (string * list value);
}.

Record sqlite_connection := Connection {
  conn_path : string;
  conn_txn : option txn;
}.

Definition store (path : string) (w : world) : database :=
  default ∅ (dbs w !! path).

Definition working_db (c : sqlite_connection) (w : world) : database :=
  match conn_txn c with
  | Some t => txn_db t
  | None => store (conn_path c) w
  end.

Definition pending (c : sqlite_connection) : list (string * list value) :=
  match conn_txn c with
  | Some t => txn_stmts t
  | None => []
  end.

Definition set_store (path : string) (db : database) (w : world) : world :=
  World (fs w) (<[path := db]> (dbs w)) (sql_log w).

Definition log_stmt (sql : string) (params : list value) (w : world) : world :=
  World (fs w) (dbs w) (sql_log w ++ [(sql, params)]).

(** [sqlite3.connect(path)]. *)
Definition connect (path : string) : M sqlite_connection :=
  mret (Connection path None).

(** [cursor.execute(sql, params)]; the result is the connection and the
    rows that [cursor.fetchall()] then returns.  [sqlite3] opens a
    transaction before an INSERT when none is open; a CREATE TABLE outside
    a transaction is written at once. *)
Definition execute (c : sqlite_connection) (sql : string) (params : list value)
  : M (sqlite_connection * list (list value)) := λ w0,
  let w := log_stmt sql params w0 in
  match parse_sql sql with
  | None => (Raise OperationalError, w)
  | Some (CreateTable ine name cols) =>
      match working_db c w !! name with
      | Some _ => if ine then (Ok (c, []), w) else (Raise OperationalError, w)
      | None =>
          match params with
          | _ :: _ => (Raise ProgrammingError, w)
          | [] =>
              let db' := <[name := SqlTable cols []]> (working_db c w) in
              match conn_txn c with
              | Some t =>
                  (Ok (Connection (conn_path c)
                         (Some (Txn db' (txn_stmts t ++ [(sql, params)]))), []),
                   w)
              | None => (Ok (c, []), set_store (conn_path c) db' w)
              end
          end
      end
  | Some (InsertInto name cols vals) =>
      match execute_insert (working_db c w) name cols vals params with
      | Ok db' =>
          (Ok (Connection (conn_path c)
                 (Some (Txn db' (pending c ++ [(sql, params)]))), []),
           w)
      | Raise e => (Raise e, w)
      end
  | Some (SelectAll name) =>
      match working_db c w !! name with
      | Some t =>
          match params with
          | _ :: _ => (Raise ProgrammingError, w)
          | [] => (Ok (c, tbl_rows t), w)
          end
      | None => (Raise OperationalError, w)
      end
  end.

(** [connection.commit()]. *)
Definition commit (c : sqlite_connection) : M sqlite_connection := λ w,
  match conn_txn c with
  | Some t => (Ok (Connection (conn_path c) None), set_store (conn_path c) (txn_db t) w)
  | None => (Ok c, w)
  end.

(** [connection.close()]: what is not committed is lost. *)
Definition close (c : sqlite_connection) : M unit := mret ().

(** ** Cell 5: [json.dump(scrapped_data, _f)] *)

Definition cell5 (scrapped_data : pydict) : M unit :=
  write_file "1992_results.json" (JsonFile scrapped_data).

(** ** Cell 8: [writer.writerow(column_names)], [writer.writerows(rows)] *)

Definition cell8 (rows : list (list string)) : M unit :=
  write_file "1992_results.csv" (CsvFile ([column_names] ++ rows)).

(** ** Cells 10, 11 and 13: the table [results] *)

Definition cell10 : M sqlite_connection :=
  connection ← connect "1992_results.db";
  '(connection, _) ← execute connection cell10_db_table [];
  commit connection.

Definition cell11_body (connection : sqlite_connection) (tr : node) : M sqlite_connection :=
  medal ← lift (medal_of tr);
  athlete ← lift (athlete_of tr);
  '(connection, _) ← execute connection cell11_query [VStr medal; VStr athlete];
  commit connection.

Definition cell11 (table : list node) : M sqlite_connection :=
  connection ← connect "1992_results.db";
  for_each_M cell11_body (xpath [Child "tr"] table) connection.

Definition cell13 : M (list (list value)) :=
  connection ← connect "1992_results.db";
  '(connection, rows) ← execute connection cell13_query [];
  _ ← commit connection;
  mret rows.

(** ** Cells 14, 15 and 16: every file of the [html] directory

    [html_files] is the directory listing in the order in which [glob]
    yields it, each path with the document parsed from the file.  The row
    loop catches [IndexError]; the table lookup stands outside the [try].
    The commit comes after the loop over the files. *)

Definition cell14 : M sqlite_connection :=
  conn ← connect "results.db";
  '(conn, _) ← execute conn cell14_create [];
  commit conn.

Definition cell15_row (conn : sqlite_connection) (tr : node) : M sqlite_connection :=
  try_except
    (rank ← lift (py_index (extract_text [Child "td"; Child "b"] tr) 0);
     athlete ← lift (py_index (extract_text [Child "td"; Child "a"] tr) 0);
     '(conn, _) ← execute conn cell15_insert [VStr (strip rank); VStr (strip athlete)];
     mret conn)
    IndexError
    (mret conn).

Definition cell15_file (conn : sqlite_connection) (html_file : string * node)
  : M sqlite_connection :=
  let response := html_file.2 in
  table ← lift (table_at response 1);
  for_each_M cell15_row (xpath [Child "tr"] table) conn.

Definition cell15_loop (conn : sqlite_connection) (html_files : list (string * node))
  : M sqlite_connection :=
  for_each_M cell15_file html_files conn.

Definition cell15 (conn : sqlite_connection) (html_files : list (string * node))
  : M unit :=
  conn ← cell15_loop conn html_files;
  conn ← commit conn;
  close conn.

Definition cell16 : M (list (list value)) :=
  conn ← connect "results.db";
  '(conn, rows) ← execute conn cell16_query [];
  _ ← commit conn;
  mret rows.

(** ** Cells 18, 19 and 20: the heights

    [extract_first()] gives [None] where nothing is selected, and [None] is
    bound as NULL. *)

Definition py_opt (o : option string) : value :=
  match o with
  | Some s => VStr s
  | None => VNone
  end.

Definition cell18 : M sqlite_connection :=
  connection ← connect "1992_jump_results.db";
  '(connection, _) ← execute connection cell18_db_table [];
  commit connection.

Definition cell19_row (connection : sqlite_connection) (tr : node) : M sqlite_connection :=
  try_except
    (let rank := extract_first (extract_text [Child "td"] tr) in
     let name := extract_first (extract_text [Child "td"; Child "a"] tr) in
     let height := extract_first (extract_text [Child "td"; Child "b"] tr) in
     '(connection, _) ← execute connection cell19_insert
                          [py_opt rank; py_opt name; py_opt height];
     commit connection)
    AttributeError
    (mret connection).

Definition cell19 (connection : sqlite_connection) (response : node) : M sqlite_connection :=
  table1 ← lift (table_at response 3);
  for_each_M cell19_row (xpath [Child "tr"] table1) connection.

Definition cell20 : M (list (list value)) :=
  connection ← connect "1992_jump_results.db";
  '(connection, rows) ← execute connection cell20_query [];
  _ ← commit connection;
  mret rows.

(** ** Definitions for the statements

    The two fields of a row of the medal table, as cells 4, 7 and 11 read
    them. *)
Definition row_pair (tr : node) : outcome (string * string) :=
  medal ← medal_of tr;
  athlete ← athlete_of tr;
  Ok (medal, athlete).

(** The pairs of the rows up to the first row that raises, and that
    exception. *)
Fixpoint scan (trs : list node) : list (string * string) * option exn :=
  match trs with
  | [] => ([], None)
  | tr :: rest =>
      match row_pair tr with
      | Ok p => (p :: (scan rest).1, (scan rest).2)
      | Raise e => ([], Some e)
      end
  end.

(** The result of a loop that met the exception [e], or none, and would
    have returned [a]. *)
Definition finish {A} (e : option exn) (a : A) : outcome A :=
  match e with
  | None => Ok a
  | Some e => Raise e
  end.

(** The dictionary that cell 4 has built after the pairs [ps]. *)
Definition build (d : pydict) (ps : list (string * string)) : pydict :=
  foldl (λ d p, dict_set p.1 p.2 d) d ps.

(** [t] after one INSERT. *)
Definition append_row (t : sqltable) (cols : list string) (params : list value)
  : sqltable :=
  SqlTable (tbl_cols t) (tbl_rows t ++ [new_row t cols params]).

(** The checks that [execute_insert] makes before it adds the row. *)
Definition insertable (t : sqltable) (cols : list string) (vals : list sql_expr)
    (params : list value) : bool :=
  forallb (λ c, bool_decide (c ∈ col_name <$> tbl_cols t)) cols
  && Nat.eqb (length cols) (length vals)
  && forallb is_placeholder vals
  && Nat.eqb (length vals) (length params)
  && negb (existsb (λ c, is_rowid_alias c && bool_decide (col_name c ∈ cols))
             (tbl_cols t)).

(** The columns that the three CREATE TABLE statements declare. *)
Definition results_cols : list column :=
  [Column "id" "integer" true; Column "medal" "TEXT" false;
   Column "athlete" "TEXT" false].

Definition hj_cols : list column :=
  [Column "rank" "TEXT" false; Column "athlete" "TEXT" false].

Definition heights_cols : list column :=
  [Column "id" "integer" true; Column "rank" "TEXT" false;
   Column "athlete" "TEXT" false; Column "height" "TEXT" false].

(** The world after one INSERT that is committed at once. *)
Definition insert_commit (path name : string) (cols : list string)
    (sql : string) (params : list value) (w : world) : world :=
  match store path w !! name with
  | Some t =>
      set_store path (<[name := append_row t cols params]> (store path w))
        (log_stmt sql params w)
  | None => log_stmt sql params w
  end.

(** The connection of cells 10 to 13 between two statements, and the world
    after one iteration of the loop of cell 11. *)
Definition conn11 : sqlite_connection := Connection "1992_results.db" None.

Definition insert11 (w : world) (p : string * string) : world :=
  insert_commit "1992_results.db" "results" ["medal"; "athlete"] cell11_query
    [VStr p.1; VStr p.2] w.

(** The table [results] is there as cell 10 creates it, with any rows. *)
Definition results_ready (w : world) : Prop :=
  ∃ rows, store "1992_results.db" w !! "results" = Some (SqlTable results_cols rows).

(** The committed rows of a table. *)
Definition rows_of (path name : string) (w : world) : list (list value) :=
  match store path w !! name with
  | Some t => tbl_rows t
  | None => []
  end.

Definition pair_values (p : string * string) : list value := [VStr p.1; VStr p.2].

(** The rows [recs], each behind its rowid, counted from [k]. *)
Fixpoint number_from (k : Z) (recs : list (list value)) : list (list value) :=
  match recs with
  | [] => []
  | r :: rs => (VInt k :: r) :: number_from (k + 1) rs
  end.

(** What the row loop of cell 15 inserts for a row, if anything. *)
Definition record15 (tr : node) : option (string * string) :=
  match row_pair tr with
  | Ok p => Some (strip p.1, strip p.2)
  | Raise _ => None
  end.

Definition conn14 : sqlite_connection := Connection "results.db" None.

(** The connection and the world after one INSERT of cell 15. *)
Definition step15 (cw : sqlite_connection * world) (p : string * string)
  : sqlite_connection * world :=
  (Connection (conn_path cw.1)
     (Some (Txn
        (match working_db cw.1 cw.2 !! "high_jump_results" with
         | Some t =>
             <["high_jump_results" := append_row t ["rank"; "athlete"] (pair_values p)]>
               (working_db cw.1 cw.2)
         | None => working_db cw.1 cw.2
         end)
        (pending cw.1 ++ [(cell15_insert, pair_values p)]))),
   log_stmt cell15_insert (pair_values p) cw.2).

(** On the connection [c], the table of cell 14 is there with [rows]. *)
Definition hj_rows (c : sqlite_connection) (w : world) (rows : list (list value)) : Prop :=
  working_db c w !! "high_jump_results" = Some (SqlTable hj_cols rows).

Definition run15 (cw : sqlite_connection * world) (ps : list (string * string))
  : sqlite_connection * world :=
  foldl step15 cw ps.

(** The rows that one file contributes. *)
Definition file_records (response : node) : outcome (list (string * string)) :=
  table ← table_at response 1;
  Ok (omap record15 (xpath [Child "tr"] table)).

Fixpoint scan_files (files : list (string * node))
  : list (string * string) * option exn :=
  match files with
  | [] => ([], None)
  | f :: rest =>
      match file_records f.2 with
      | Ok ps => (ps ++ (scan_files rest).1, (scan_files rest).2)
      | Raise e => ([], Some e)
      end
  end.

(** The statements that a step adds to the log. *)
Definition sent {A} (w : world) (r : outcome A * world) : list (string * list value) :=
  drop (length (sql_log w)) (sql_log r.2).

(** [w'] extends the log of [w] by statements whose text is [q]. *)
Definition logs_only (q : string) (w w' : world) : Prop :=
  ∃ l, sql_log w' = sql_log w ++ l ∧ Forall (λ e, e.1 = q) l.

(** [w'] has the files and the committed databases of [w]. *)
Definition same_stores (w w' : world) : Prop :=
  dbs w' = dbs w ∧ fs w' = fs w.

Definition entries15 (ps : list (string * string)) : list (string * list value) :=
  (λ p, (cell15_insert, pair_values p)) <$> ps.

(** Cell 19: the values bound for a row, and the row loop. *)
Definition record19 (tr : node) : list value :=
  [py_opt (extract_first (extract_text [Child "td"] tr));
   py_opt (extract_first (extract_text [Child "td"; Child "a"] tr));
   py_opt (extract_first (extract_text [Child "td"; Child "b"] tr))].

Definition conn18 : sqlite_connection := Connection "1992_jump_results.db" None.

Definition insert19 (w : world) (tr : node) : world :=
  insert_commit "1992_jump_results.db" "heights" ["rank"; "athlete"; "height"]
    cell19_insert (record19 tr) w.

Definition heights_ready (w : world) : Prop :=
  ∃ rows, store "1992_jump_results.db" w !! "heights"
          = Some (SqlTable heights_cols rows).

(** The exception of a result, if it is one. *)
Definition raised {A} (o : outcome A) : option exn :=
  match o with
  | Ok _ => None
  | Raise e => Some e
  end.

(** An INSERT all of whose values are placeholders. *)
Definition parameterized (sql : string) : bool :=
  match parse_sql sql with
  | Some (InsertInto _ _ vals) => forallb is_placeholder vals
  | _ => false
  end.

(** A CREATE TABLE IF NOT EXISTS with a rowid column, whose other columns
    are TEXT. *)
Definition identity_plus_text (sql : string) : bool :=
  match parse_sql sql with
  | Some (CreateTable ine _ cols) =>
      ine && existsb is_rowid_alias cols
      && forallb (λ c, is_rowid_alias c || kw "TEXT" (col_type c)) cols
  | _ => false
  end.

(** Every row of [rows] starts with an integer identity, and [n] more rows
    can follow the largest of them, and follow each other from 1, without
    passing 2^63 - 1. *)
Definition has_room (n : nat) (rows : list (list value)) : bool :=
  (Z.of_nat n <=? 2 ^ 63 - 1)%Z
  && forallb (λ r, match r with
                   | VInt z :: _ => (z + Z.of_nat n <=? 2 ^ 63 - 1)%Z
                   | _ => false
                   end) rows.



(** ** Sample documents *)

Module Sample.

Definition td (cs : list node) : node := Element "td" cs.
Definition th (s : string) : node := Element "th" [Text s].
Definition bold (s : string) : node := Element "b" [Text s].
Definition link (s : string) : node := Element "a" [Text s].
Definition row (cs : list node) : node := Element "tr" cs.
Definition tbl (rows : list node) : node :=
  Element "table" [Element "tbody" rows].
Definition page (tables : list node) : node :=
  Element "html" [Element "body" tables].

Definition medal_row (medal athlete : string) : node :=
  row [td [bold medal]; td [link athlete]].

Definition empty_world : world := World ∅ ∅ [].

Definition header_row : node := row [th "Rank"; th "Name"; th "Result"].

(** The 1992 page, cut down: the medal table is the second table and the
    results table, which starts with a header row, the fourth. *)
Definition medals1992 : list node :=
  [medal_row "Gold" "Steve Smith";
   medal_row "Silver" "Tim Forsyth";
   medal_row "Bronze" "Takahiro Kimino"].

Definition page1992 : node :=
  page [tbl [];
        tbl medals1992;
        tbl [];
        tbl [header_row;
             row [td [Text "1"]; td [link "Tim Forsyth"]; td [bold "2.16"]];
             row [td [Text "3"]; td [link "Xu Xiaodong"]; td [bold "2.16"]]]].

Definition table1992 : list node := [Element "tbody" medals1992].

Definition pairs1992 : list (string * string) :=
  [("Gold", "Steve Smith"); ("Silver", "Tim Forsyth");
   ("Bronze", "Takahiro Kimino")].

(** The 1996 page had two silver medals; here its medal table also has a
    row without medal. *)
Definition medals1996 : list node :=
  [medal_row "Gold" "Mark Boswell";
   medal_row "Silver" "Svatoslav Ton";
   medal_row "Silver" "Ben Challenger"].

Definition table1996 : list node := [Element "tbody" medals1996].

Definition pairs1996 : list (string * string) :=
  [("Gold", "Mark Boswell"); ("Silver", "Svatoslav Ton");
   ("Silver", "Ben Challenger")].

Definition page1996 : node :=
  page [tbl [];
        tbl (row [td [Text "Event"]] :: medals1996)].

Definition html_files : list (string * node) :=
  [("html/1992", page1992); ("html/1996", page1996)].

End Sample.

(** ** Cell 17: the heights, printed

    The loop of cell 19 without the INSERT: one printed line per row, the
    three values as [print] receives them.  The body cannot raise
    [AttributeError]; the handler is there as in the source. *)

Definition catch {A} (o : outcome A) (e : exn) (handler : outcome A) : outcome A :=
  match o with
  | Raise e' => if decide (e' = e) then handler else Raise e'
  | Ok a => Ok a
  end.

Definition cell17_row (printed : list (list value)) (tr : node)
  : outcome (list (list value)) :=
  catch
    (let rank := extract_first (extract_text [Child "td"] tr) in
     let name := extract_first (extract_text [Child "td"; Child "a"] tr) in
     let height := extract_first (extract_text [Child "td"; Child "b"] tr) in
     Ok (printed ++ [[py_opt rank; py_opt name; py_opt height]]))
    AttributeError
    (Ok printed).

Definition cell17 (response : node) : outcome (list (list value)) :=
  table1 ← table_at response 3;
  for_each cell17_row (xpath [Child "tr"] table1) [].

(** ** Definitions for the further statements *)

Definition first_char (s : string) : option ascii :=
  match s with
  | EmptyString => None
  | String c _ => Some c
  end.

Fixpoint last_char (s : string) : option ascii :=
  match s with
  | EmptyString => None
  | String c s' =>
      match last_char s' with
      | Some d => Some d
      | None => Some c
      end
  end.

(** No white space at either end. *)
Definition trimmed (s : string) : Prop :=
  (∀ c, first_char s = Some c → isspace c = false)
  ∧ (∀ c, last_char s = Some c → isspace c = false).

(** [w'] differs from [w] at most in the database file [path] and in the
    log. *)
Definition touches_db_only (path : string) (w w' : world) : Prop :=
  fs w' = fs w ∧ ∀ p, p ≠ path → dbs w' !! p = dbs w !! p.

(** [w'] differs from [w] at most in the file [path]. *)
Definition touches_file_only (path : string) (w w' : world) : Prop :=
  dbs w' = dbs w ∧ sql_log w' = sql_log w
  ∧ ∀ p, p ≠ path → fs w' !! p = fs w !! p.

Module SampleExtra.

(** A medal table whose second row has no athlete link. *)
Definition broken_rows : list node :=
  [Sample.medal_row "Gold" "Mark Boswell";
   Sample.row [Sample.td [Sample.bold "Silver"]; Sample.td [Text "vacant"]];
   Sample.medal_row "Bronze" "Ben Challenger"].

Definition broken_table : list node := [Element "tbody" broken_rows].

(** A page with one table only. *)
Definition short_page : node := Sample.page [Sample.tbl Sample.medals1992].

(** A medal table with white space around the texts. *)
Definition padded_page : node :=
  Sample.page [Sample.tbl [];
               Sample.tbl [Sample.medal_row " Gold
" "  Steve Smith "]].

(** A world in which [results] holds two rows with identities 4 and 9. *)
Definition sparse_world : world :=
  World ∅
    {["1992_results.db" :=
        {["results" :=
            SqlTable results_cols
              [[VInt 4; VStr "Gold"; VStr "A"]; [VInt 9; VStr "Silver"; VStr "B"]]]}]}
    [].

(** A world in which [results] holds one row with a negative identity. *)
Definition negative_world : world :=
  World ∅
    {["1992_results.db" :=
        {["results" :=
            SqlTable results_cols [[VInt (-5); VStr "Gold"; VStr "A"]]]}]}
    [].

End SampleExtra.

(** * Lemmas *)

(** ** The loops of cells 4 and 7 *)

Section pure_loops.
Context {S : Type} (body : S → node → outcome S) (f : S → string * string → S).
Hypothesis body_pair : ∀ s tr, body s tr = p ← row_pair tr; Ok (f s p).

Lemma for_each_scan trs s :
  for_each body trs s = finish (scan trs).2 (foldl f s (scan trs).1).
Proof.
  revert s. induction trs as [|tr trs IH]; intros s; [done|].
  cbn [for_each scan]. rewrite body_pair.
  destruct (row_pair tr) as [p|e]; [|done].
  cbn. apply IH.
Qed.

End pure_loops.

Lemma cell4_body_pair d tr :
  cell4_body d tr = p ← row_pair tr; Ok (dict_set p.1 p.2 d).
Proof.
  unfold cell4_body, row_pair.
  destruct (medal_of tr); [|done]. cbn. by destruct (athlete_of tr).
Qed.

Lemma cell7_body_pair rows tr :
  cell7_body rows tr = p ← row_pair tr; Ok (rows ++ [[p.1; p.2]]).
Proof.
  unfold cell7_body, row_pair.
  destruct (medal_of tr); [|done]. cbn. by destruct (athlete_of tr).
Qed.

Lemma scan_ok trs :
  (scan trs).2 = None ↔ Forall2 (λ tr p, row_pair tr = Ok p) trs (scan trs).1.
Proof.
  induction trs as [|tr trs IH]; cbn.
  - split; [constructor|done].
  - destruct (row_pair tr) as [p|e] eqn:E; cbn.
    + rewrite IH. split.
      * by constructor.
      * by inversion 1.
    + split; [done|]. inversion 1.
Qed.

Lemma scan_Forall2 trs ps :
  Forall2 (λ tr p, row_pair tr = Ok p) trs ps → scan trs = (ps, None).
Proof.
  induction 1 as [|tr p trs ps Hp _ IH]; [done|].
  cbn. by rewrite Hp, IH.
Qed.

Lemma foldl_snoc_rows (ps : list (string * string)) rows :
  foldl (λ (rows : list (list string)) p, rows ++ [[p.1; p.2]]) rows ps
  = rows ++ ((λ p, [p.1; p.2]) <$> ps).
Proof.
  revert rows. induction ps as [|p ps IH]; intros rows; cbn.
  - by rewrite app_nil_r.
  - rewrite IH. by rewrite <- app_assoc.
Qed.

Lemma cell4_scan table :
  cell4 table = finish (scan (xpath [Child "tr"] table)).2
                  (foldl (λ d p, dict_set p.1 p.2 d) [] (scan (xpath [Child "tr"] table)).1).
Proof. apply for_each_scan, cell4_body_pair. Qed.

Lemma cell7_scan table :
  cell7 table = finish (scan (xpath [Child "tr"] table)).2
                  ((λ p, [p.1; p.2]) <$> (scan (xpath [Child "tr"] table)).1).
Proof.
  unfold cell7. rewrite (for_each_scan _ _ cell7_body_pair).
  by rewrite foldl_snoc_rows.
Qed.

(** ** Dictionaries *)

Lemma dict_get_set k v d k' :
  dict_get k' (dict_set k v d) = if String.eqb k' k then Some v else dict_get k' d.
Proof.
  induction d as [|[k0 v0] d IH]; cbn.
  - done.
  - destruct (String.eqb_spec k k0) as [->|Hk]; cbn.
    + by destruct (String.eqb_spec k' k0).
    + rewrite IH.
      destruct (String.eqb_spec k' k0) as [->|]; [|done].
      by destruct (String.eqb_spec k0 k) as [->|].
Qed.

Lemma dict_keys_set k v d :
  dict_keys (dict_set k v d)
  = if bool_decide (k ∈ dict_keys d) then dict_keys d else dict_keys d ++ [k].
Proof.
  unfold dict_keys.
  induction d as [|[k0 v0] d IH]; cbn; [done|].
  destruct (String.eqb_spec k k0) as [->|Hk]; cbn.
  - rewrite bool_decide_eq_true_2; [done|]. left.
  - rewrite IH. case_bool_decide as H1.
    + rewrite bool_decide_eq_true_2; [done|]. by right.
    + rewrite bool_decide_eq_false_2; [done|].
      intros [?|?]%elem_of_cons; done.
Qed.

Lemma dict_get_elem k v (d : pydict) : dict_get k d = Some v → (k, v) ∈ d.
Proof.
  induction d as [|[k0 v0] d IH]; cbn; [done|].
  destruct (String.eqb_spec k k0) as [->|Hk].
  - intros [= ->]. left.
  - intros H. right. by apply IH.
Qed.

Lemma dict_get_is_Some k (d : pydict) : is_Some (dict_get k d) ↔ k ∈ dict_keys d.
Proof.
  unfold dict_keys.
  induction d as [|[k0 v0] d IH]; cbn.
  - split; [by intros [? ?]|by intros ?%elem_of_nil].
  - destruct (String.eqb_spec k k0) as [->|Hk].
    + split; [left|eauto].
    + rewrite IH. split; [by right|].
      by intros [?|?]%elem_of_cons.
Qed.

Lemma build_keys ps d l :
  l ∈ dict_keys (build d ps) ↔ l ∈ dict_keys d ∨ l ∈ ps.*1.
Proof.
  revert d. induction ps as [|[k v] ps IH]; intros d; cbn.
  - rewrite elem_of_nil. tauto.
  - unfold build in IH. rewrite IH, dict_keys_set, elem_of_cons. cbn.
    case_bool_decide as Hk.
    + split; [tauto|]. intros [?|[->|?]]; tauto.
    + rewrite elem_of_app, list_elem_of_singleton. tauto.
Qed.

Lemma build_NoDup ps d : NoDup (dict_keys d) → NoDup (dict_keys (build d ps)).
Proof.
  revert d. induction ps as [|[k v] ps IH]; intros d Hd; cbn; [done|].
  apply IH. rewrite dict_keys_set. cbn. case_bool_decide as Hk; [done|].
  apply NoDup_app. split_and!; [done| |apply NoDup_singleton].
  intros x Hx ->%list_elem_of_singleton. done.
Qed.

Lemma build_get ps d l :
  dict_get l (build d ps)
  = match last (filter (λ p, p.1 = l) ps) with
    | Some p => Some p.2
    | None => dict_get l d
    end.
Proof.
  revert d. induction ps as [|[k v] ps IH]; intros d; cbn; [done|].
  unfold build in IH. rewrite IH.
  rewrite dict_get_set.
  destruct (decide (k = l)) as [->|Hk].
  - rewrite String.eqb_refl, last_cons. by destruct (last _).
  - destruct (last _); [done|].
    destruct (String.eqb_spec l k) as [Hl|]; [by subst|done].
Qed.

Lemma row_pair_inv tr p :
  row_pair tr = Ok p ↔ medal_of tr = Ok p.1 ∧ athlete_of tr = Ok p.2.
Proof.
  unfold row_pair. destruct p as [m n]. cbn.
  destruct (medal_of tr) as [m'|]; cbn; [|by split; [|intros [? ?]]].
  destruct (athlete_of tr) as [n'|]; cbn; [|by split; [|intros [? ?]]].
  split; [by intros [= -> ->]|by intros [[= ->] [= ->]]].
Qed.

Lemma finish_Ok {A} e (x y : A) : finish e x = Ok y ↔ e = None ∧ x = y.
Proof.
  destruct e; cbn; (split; [intros [= ->]|intros [H ->]]); done.
Qed.

Lemma cell4_Ok table d :
  cell4 table = Ok d ↔
  ∃ ps, Forall2 (λ tr p, row_pair tr = Ok p) (xpath [Child "tr"] table) ps
        ∧ d = build [] ps.
Proof.
  rewrite cell4_scan, finish_Ok. split.
  - intros [He <-]. exists (scan (xpath [Child "tr"] table)).1.
    split; [by apply scan_ok|done].
  - intros (ps & Hps & ->). apply scan_Forall2 in Hps. by rewrite Hps.
Qed.

Lemma cell7_Ok table rows :
  cell7 table = Ok rows ↔
  ∃ ps, Forall2 (λ tr p, row_pair tr = Ok p) (xpath [Child "tr"] table) ps
        ∧ rows = (λ p, [p.1; p.2]) <$> ps.
Proof.
  rewrite cell7_scan, finish_Ok. split.
  - intros [He <-]. exists (scan (xpath [Child "tr"] table)).1.
    split; [by apply scan_ok|done].
  - intros (ps & Hps & ->). apply scan_Forall2 in Hps. by rewrite Hps.
Qed.

Lemma Forall2_functional trs (ps qs : list (string * string)) :
  Forall2 (λ tr p, row_pair tr = Ok p) trs ps →
  Forall2 (λ tr p, row_pair tr = Ok p) trs qs → ps = qs.
Proof.
  intros H. revert qs. induction H as [|tr p trs ps Hp _ IH]; intros qs Hq.
  - by inversion Hq.
  - inversion Hq as [|? q ? qs' Hq1 Hq2]; subst. f_equal; [congruence|by apply IH].
Qed.

(** ** One INSERT *)

Lemma execute_insert_ok db name cols vals params t :
  db !! name = Some t →
  insertable t cols vals params = true →
  execute_insert db name cols vals params
  = Ok (<[name := append_row t cols params]> db).
Proof.
  intros Ht Hok. unfold execute_insert. rewrite Ht.
  unfold insertable in Hok.
  repeat (apply andb_prop in Hok as [Hok ?]).
  rewrite Hok. cbn [negb].
  repeat match goal with H : _ = true |- _ => rewrite H; clear H end.
  cbn [negb].
  by destruct (existsb _ _).
Qed.

Lemma working_db_log c sql params w :
  working_db c (log_stmt sql params w) = working_db c w.
Proof. done. Qed.

Lemma execute_insert_stmt c sql name cols vals params t w :
  parse_sql sql = Some (InsertInto name cols vals) →
  working_db c w !! name = Some t →
  insertable t cols vals params = true →
  execute c sql params w
  = (Ok (Connection (conn_path c)
           (Some (Txn (<[name := append_row t cols params]> (working_db c w))
                    (pending c ++ [(sql, params)]))), []),
     log_stmt sql params w).
Proof.
  intros Hp Ht Hok. unfold execute. cbv zeta. rewrite Hp.
  rewrite working_db_log.
  by rewrite (execute_insert_ok _ _ _ _ _ _ Ht Hok).
Qed.

(** ** The statements, parsed *)

Lemma parse_cell10 :
  parse_sql cell10_db_table = Some (CreateTable true "results" results_cols).
Proof. vm_compute. reflexivity. Qed.
Lemma parse_cell11 :
  parse_sql cell11_query
  = Some (InsertInto "results" ["medal"; "athlete"] [Placeholder; Placeholder]).
Proof. vm_compute. reflexivity. Qed.
Lemma parse_cell13 : parse_sql cell13_query = Some (SelectAll "results").
Proof. vm_compute. reflexivity. Qed.
Lemma parse_cell14 :
  parse_sql cell14_create = Some (CreateTable true "high_jump_results" hj_cols).
Proof. vm_compute. reflexivity. Qed.
Lemma parse_cell15 :
  parse_sql cell15_insert
  = Some (InsertInto "high_jump_results" ["rank"; "athlete"]
            [Placeholder; Placeholder]).
Proof. vm_compute. reflexivity. Qed.
Lemma parse_cell16 : parse_sql cell16_query = Some (SelectAll "high_jump_results").
Proof. vm_compute. reflexivity. Qed.
Lemma parse_cell18 :
  parse_sql cell18_db_table = Some (CreateTable true "heights" heights_cols).
Proof. vm_compute. reflexivity. Qed.
Lemma parse_cell19 :
  parse_sql cell19_insert
  = Some (InsertInto "heights" ["rank"; "athlete"; "height"]
            [Placeholder; Placeholder; Placeholder]).
Proof. vm_compute. reflexivity. Qed.
Lemma parse_cell20 : parse_sql cell20_query = Some (SelectAll "heights").
Proof. vm_compute. reflexivity. Qed.

Lemma store_set_store path db w : store path (set_store path db w) = db.
Proof. unfold store, set_store. cbn. by rewrite lookup_insert_eq. Qed.

Lemma store_log path sql params w : store path (log_stmt sql params w) = store path w.
Proof. done. Qed.

Lemma insert_commit_store path name cols sql params w t :
  store path w !! name = Some t →
  store path (insert_commit path name cols sql params w)
  = <[name := append_row t cols params]> (store path w).
Proof. intros H. unfold insert_commit. rewrite H. apply store_set_store. Qed.

Lemma insert_commit_log path name cols sql params w :
  sql_log (insert_commit path name cols sql params w)
  = sql_log w ++ [(sql, params)].
Proof. unfold insert_commit. by destruct (_ !! _). Qed.

Lemma insert_commit_fs path name cols sql params w :
  fs (insert_commit path name cols sql params w) = fs w.
Proof. unfold insert_commit. by destruct (_ !! _). Qed.

(** An INSERT on a connection without open transaction, then a commit. *)
Lemma execute_commit path sql name cols vals params t w :
  parse_sql sql = Some (InsertInto name cols vals) →
  store path w !! name = Some t →
  insertable t cols vals params = true →
  ('(c, _) ← execute (Connection path None) sql params; commit c) w
  = (Ok (Connection path None), insert_commit path name cols sql params w).
Proof.
  intros Hp Ht Hok. unfold mbind, M_bind.
  rewrite (execute_insert_stmt _ _ _ _ _ _ t _ Hp); [|done|done].
  unfold insert_commit. by rewrite Ht.
Qed.

(** ** The loop of cell 11 *)

Lemma cell11_body_ok tr p w :
  results_ready w → row_pair tr = Ok p →
  cell11_body conn11 tr w = (Ok conn11, insert11 w p).
Proof.
  intros [rows Hr] [Hm Ha]%row_pair_inv. unfold cell11_body.
  unfold mbind at 1, M_bind at 1, lift at 1. rewrite Hm.
  unfold mbind at 1, M_bind at 1, lift at 1. rewrite Ha.
  by apply (execute_commit _ _ _ _ _ _ _ _ parse_cell11 Hr).
Qed.

Lemma cell11_body_raise tr e w :
  row_pair tr = Raise e → cell11_body conn11 tr w = (Raise e, w).
Proof.
  unfold row_pair, cell11_body. intros H.
  unfold mbind at 1, M_bind at 1, lift at 1.
  destruct (medal_of tr); cbn in H; [|congruence].
  unfold mbind at 1, M_bind at 1, lift at 1.
  destruct (athlete_of tr); cbn in H; congruence.
Qed.

Lemma insert11_ready w p : results_ready w → results_ready (insert11 w p).
Proof.
  intros [rows Hr]. unfold results_ready, insert11.
  rewrite (insert_commit_store _ _ _ _ _ _ _ Hr), lookup_insert_eq.
  by eexists.
Qed.

Lemma cell11_loop trs w :
  results_ready w →
  for_each_M cell11_body trs conn11 w
  = (finish (scan trs).2 conn11, foldl insert11 w (scan trs).1).
Proof.
  revert w. induction trs as [|tr trs IH]; intros w Hw; [done|].
  cbn [for_each_M scan]. unfold mbind, M_bind.
  destruct (row_pair tr) as [p|e] eqn:Hp.
  - rewrite (cell11_body_ok _ _ _ Hw Hp). cbn [fst snd foldl].
    apply IH. by apply insert11_ready.
  - by rewrite (cell11_body_raise _ _ _ Hp).
Qed.

(** ** Rowids *)

Lemma number_from_app k xs ys :
  number_from k (xs ++ ys)
  = number_from k xs ++ number_from (k + Z.of_nat (length xs)) ys.
Proof.
  revert k. induction xs as [|x xs IH]; intros k; cbn [number_from app length].
  - by rewrite Z.add_0_r.
  - rewrite IH. do 3 f_equal. lia.
Qed.

Lemma number_from_lookup k recs (i : nat) :
  number_from k recs !! i = (λ r, VInt (k + Z.of_nat i) :: r) <$> recs !! i.
Proof.
  revert k i. induction recs as [|r rs IH]; intros k [|i]; cbn; try done.
  - by rewrite Z.add_0_r.
  - rewrite IH. do 3 f_equal. lia.
Qed.

Lemma rowid_of_head cols c z r :
  is_rowid_alias c = true → rowid_of (c :: cols) (VInt z :: r) = z.
Proof. intros Hc. unfold rowid_of. cbn. rewrite Hc. by rewrite decide_True. Qed.

Lemma foldr_max_base (k z : Z) zs :
  foldr Z.max (Z.max k z) zs = Z.max k (foldr Z.max z zs).
Proof. induction zs as [|y zs IH]; cbn [foldr]; [done|]. rewrite IH. lia. Qed.

Lemma foldr_max_ge (z : Z) zs x : x ∈ z :: zs → (x ≤ foldr Z.max z zs)%Z.
Proof.
  induction zs as [|y zs IH]; cbn [foldr].
  - intros ->%list_elem_of_singleton. lia.
  - intros [->|[->|H]%elem_of_cons]%elem_of_cons.
    + assert (z ∈ z :: zs) as Hz by left. specialize (IH Hz). lia.
    + lia.
    + assert (x ∈ z :: zs) as Hx by (by right). specialize (IH Hx). lia.
Qed.

Lemma foldr_max_in (z : Z) zs : foldr Z.max z zs ∈ z :: zs.
Proof.
  induction zs as [|y zs IH]; cbn [foldr]; [left|].
  destruct (Z.max_spec y (foldr Z.max z zs)) as [[_ ->]|[_ ->]].
  - apply elem_of_cons in IH as [->|IH]; [left|]. right. by right.
  - right. left.
Qed.

Lemma max_rowid_numbered cols c (b k : Z) recs :
  is_rowid_alias c = true → (b < k)%Z →
  foldr Z.max b (rowid_of (c :: cols) <$> number_from k recs)
  = match recs with
    | [] => b
    | _ :: _ => (k + Z.of_nat (length recs) - 1)%Z
    end.
Proof.
  intros Hc. revert k. induction recs as [|r rs IH]; intros k Hk; [done|].
  cbn [number_from fmap list_fmap foldr]. rewrite IH by lia.
  rewrite (rowid_of_head _ _ _ _ Hc).
  destruct rs; cbn [length]; lia.
Qed.

Lemma next_rowid_numbered cols c recs :
  is_rowid_alias c = true →
  next_rowid (SqlTable (c :: cols) (number_from 1 recs))
  = (1 + Z.of_nat (length recs))%Z.
Proof.
  intros Hc. unfold next_rowid. cbn [tbl_cols tbl_rows].
  destruct recs as [|r rs]; [done|].
  cbn [number_from fmap list_fmap]. rewrite (rowid_of_head _ _ _ _ Hc).
  rewrite (max_rowid_numbered _ _ _ _ _ Hc) by lia.
  destruct rs; cbn [length]; lia.
Qed.

Lemma next_rowid_nil cols : next_rowid (SqlTable cols []) = 1%Z.
Proof. done. Qed.

Lemma next_rowid_gt cols rows r :
  r ∈ rows → (rowid_of cols r < next_rowid (SqlTable cols rows))%Z.
Proof.
  intros Hr. unfold next_rowid. cbn [tbl_cols tbl_rows].
  assert (rowid_of cols r ∈ rowid_of cols <$> rows) as Hin.
  { apply list_elem_of_fmap. eauto. }
  destruct (rowid_of cols <$> rows) as [|z zs]; [by apply elem_of_nil in Hin|].
  apply foldr_max_ge in Hin. lia.
Qed.

Lemma next_rowid_attained cols rows :
  rows ≠ [] →
  ∃ r, r ∈ rows ∧ next_rowid (SqlTable cols rows) = (rowid_of cols r + 1)%Z.
Proof.
  intros Hne. unfold next_rowid. cbn [tbl_cols tbl_rows].
  destruct (rowid_of cols <$> rows) as [|z zs] eqn:E.
  { by apply fmap_nil_inv in E. }
  pose proof (foldr_max_in z zs) as Hin. rewrite <- E in Hin.
  apply list_elem_of_fmap in Hin as (r & Hr & Hin). exists r. split; [done|]. lia.
Qed.

Lemma next_rowid_snoc cols c rows r :
  is_rowid_alias c = true →
  next_rowid (SqlTable (c :: cols)
                (rows ++ [VInt (next_rowid (SqlTable (c :: cols) rows)) :: r]))
  = (next_rowid (SqlTable (c :: cols) rows) + 1)%Z.
Proof.
  intros Hc. unfold next_rowid. cbn [tbl_cols tbl_rows].
  rewrite fmap_app. cbn [fmap list_fmap]. rewrite (rowid_of_head _ _ _ _ Hc).
  destruct (rowid_of (c :: cols) <$> rows) as [|z zs]; cbn [app]; [done|].
  rewrite foldr_app. cbn [foldr]. rewrite foldr_max_base. lia.
Qed.

Lemma next_rowid_results recs :
  next_rowid (SqlTable results_cols (number_from 1 recs))
  = (1 + Z.of_nat (length recs))%Z.
Proof. by apply (next_rowid_numbered [_; _] (Column "id" "integer" true)). Qed.

Lemma insert11_rows w p rows :
  store "1992_results.db" w !! "results" = Some (SqlTable results_cols rows) →
  store "1992_results.db" (insert11 w p) !! "results"
  = Some (SqlTable results_cols
            (rows ++ [VInt (next_rowid (SqlTable results_cols rows)) :: pair_values p])).
Proof.
  intros Hr. unfold insert11.
  rewrite (insert_commit_store _ _ _ _ _ _ _ Hr), lookup_insert_eq. done.
Qed.

Lemma foldl_insert11_numbered ps w old :
  store "1992_results.db" w !! "results"
    = Some (SqlTable results_cols (number_from 1 old)) →
  store "1992_results.db" (foldl insert11 w ps) !! "results"
  = Some (SqlTable results_cols (number_from 1 (old ++ (pair_values <$> ps)))).
Proof.
  revert w old. induction ps as [|p ps IH]; intros w old Hw; cbn [foldl fmap list_fmap].
  - by rewrite app_nil_r.
  - rewrite (IH _ (old ++ [pair_values p])).
    + by rewrite <- app_assoc.
    + rewrite (insert11_rows _ _ _ Hw).
      rewrite next_rowid_results.
      rewrite number_from_app. cbn [number_from]. done.
Qed.

Lemma next_rowid_snoc_results rows r :
  next_rowid (SqlTable results_cols
                (rows ++ [VInt (next_rowid (SqlTable results_cols rows)) :: r]))
  = (next_rowid (SqlTable results_cols rows) + 1)%Z.
Proof. by apply (next_rowid_snoc [_; _] (Column "id" "integer" true)). Qed.

Lemma foldl_insert11_from ps w rows :
  store "1992_results.db" w !! "results" = Some (SqlTable results_cols rows) →
  store "1992_results.db" (foldl insert11 w ps) !! "results"
  = Some (SqlTable results_cols
            (rows ++ number_from (next_rowid (SqlTable results_cols rows))
                       (pair_values <$> ps))).
Proof.
  revert w rows. induction ps as [|p ps IH]; intros w rows Hw;
    cbn [foldl fmap list_fmap number_from].
  - by rewrite app_nil_r.
  - rewrite (IH _ _ (insert11_rows _ p _ Hw)).
    rewrite next_rowid_snoc_results.
    by rewrite <- app_assoc.
Qed.

Lemma foldl_insert11_log ps w :
  sql_log (foldl insert11 w ps)
  = sql_log w ++ ((λ p, (cell11_query, pair_values p)) <$> ps).
Proof.
  revert w. induction ps as [|p ps IH]; intros w; cbn [foldl fmap list_fmap].
  - by rewrite app_nil_r.
  - rewrite IH. unfold insert11. rewrite insert_commit_log.
    by rewrite <- app_assoc.
Qed.

Lemma foldl_insert11_fs ps w : fs (foldl insert11 w ps) = fs w.
Proof.
  revert w. induction ps as [|p ps IH]; intros w; cbn [foldl]; [done|].
  rewrite IH. apply insert_commit_fs.
Qed.

Lemma foldl_insert11_ready ps w : results_ready w → results_ready (foldl insert11 w ps).
Proof.
  revert w. induction ps as [|p ps IH]; intros w Hw; cbn [foldl]; [done|].
  by apply IH, insert11_ready.
Qed.

(** Payloads, whatever the rows that were there. *)
Lemma foldl_insert11_payload ps w rows :
  store "1992_results.db" w !! "results" = Some (SqlTable results_cols rows) →
  ∃ new, store "1992_results.db" (foldl insert11 w ps) !! "results"
         = Some (SqlTable results_cols (rows ++ new))
         ∧ tail <$> new = pair_values <$> ps.
Proof.
  revert w rows. induction ps as [|p ps IH]; intros w rows Hw; cbn [foldl].
  - exists []. by rewrite app_nil_r.
  - destruct (IH _ _ (insert11_rows _ p _ Hw)) as (new & Hn & Ht).
    eexists (_ :: new). rewrite Hn, <- app_assoc. split; [done|].
    cbn. by rewrite Ht.
Qed.

(** Cell 10 on a database file without the table, and with it. *)
Lemma cell10_fresh w :
  store "1992_results.db" w !! "results" = None →
  cell10 w
  = (Ok conn11,
     set_store "1992_results.db"
       (<["results" := SqlTable results_cols []]> (store "1992_results.db" w))
       (log_stmt cell10_db_table [] w)).
Proof.
  intros H. unfold cell10, connect. unfold mbind, M_bind, mret, M_ret.
  unfold execute. cbv zeta. rewrite parse_cell10.
  unfold working_db. cbn [conn_txn conn_path]. rewrite store_log, H.
  done.
Qed.

Lemma cell10_present w :
  is_Some (store "1992_results.db" w !! "results") →
  cell10 w = (Ok conn11, log_stmt cell10_db_table [] w).
Proof.
  intros [t H]. unfold cell10, connect. unfold mbind, M_bind, mret, M_ret.
  unfold execute. cbv zeta. rewrite parse_cell10.
  unfold working_db. cbn [conn_txn conn_path]. rewrite store_log, H.
  done.
Qed.

Lemma cell13_rows w t :
  store "1992_results.db" w !! "results" = Some t →
  cell13 w = (Ok (tbl_rows t), log_stmt cell13_query [] w).
Proof.
  intros H. unfold cell13, connect. unfold mbind, M_bind, mret, M_ret.
  unfold execute. cbv zeta. rewrite parse_cell13.
  unfold working_db. cbn [conn_txn conn_path]. rewrite store_log, H.
  done.
Qed.

Lemma cell11_run table w :
  results_ready w →
  cell11 table w
  = (finish (scan (xpath [Child "tr"] table)).2 conn11,
     foldl insert11 w (scan (xpath [Child "tr"] table)).1).
Proof. intros Hw. unfold cell11, connect. by apply cell11_loop. Qed.

Lemma cell10_ready w :
  store "1992_results.db" w !! "results" = None →
  store "1992_results.db" (cell10 w).2 !! "results"
  = Some (SqlTable results_cols (number_from 1 [])).
Proof.
  intros H. rewrite (cell10_fresh _ H). cbn [snd].
  by rewrite store_set_store, lookup_insert_eq.
Qed.

(** ** The loops of cell 15 *)

(** Cell 15 reads the two fields as the other cells do. *)
Ltac fold_fields tr :=
  change (py_index (extract_text [Child "td"; Child "b"] tr) 0) with (medal_of tr);
  change (py_index (extract_text [Child "td"; Child "a"] tr) 0) with (athlete_of tr).

Lemma py_index_raise {A} (l : list A) i e : py_index l i = Raise e → e = IndexError.
Proof. unfold py_index. destruct (l !! i); congruence. Qed.

Lemma row_pair_raise tr e : row_pair tr = Raise e → e = IndexError.
Proof.
  unfold row_pair.
  destruct (medal_of tr) as [m|e1] eqn:E1; cbn.
  - destruct (athlete_of tr) as [n|e2] eqn:E2; cbn; [intros [=]|].
    intros [= <-]. by apply py_index_raise in E2.
  - intros [= <-]. by apply py_index_raise in E1.
Qed.

Lemma step15_rows c w p rows :
  hj_rows c w rows →
  hj_rows (step15 (c, w) p).1 (step15 (c, w) p).2 (rows ++ [pair_values p]).
Proof.
  unfold hj_rows. intros H. unfold step15. cbn [fst snd].
  unfold working_db at 1. cbn [conn_txn txn_db]. rewrite H.
  by rewrite lookup_insert_eq.
Qed.

Lemma cell15_row_spec c tr w rows :
  hj_rows c w rows →
  cell15_row c tr w
  = match record15 tr with
    | Some p => (Ok (step15 (c, w) p).1, (step15 (c, w) p).2)
    | None => (Ok c, w)
    end.
Proof.
  intros Hr. unfold cell15_row, try_except, record15, row_pair.
  fold_fields tr.
  destruct (medal_of tr) as [m|e1] eqn:Hm.
  - destruct (athlete_of tr) as [n|e2] eqn:Hn.
    + unfold mbind, M_bind, outcome_bind, lift, mret, M_ret.
      rewrite (execute_insert_stmt _ _ _ _ _ _ _ _ parse_cell15 Hr); [|done].
      unfold step15. cbn [fst snd]. unfold hj_rows in Hr. by rewrite Hr.
    + apply py_index_raise in Hn as ->. done.
  - apply py_index_raise in Hm as ->. done.
Qed.

Lemma run15_rows ps c w rows :
  hj_rows c w rows →
  hj_rows (run15 (c, w) ps).1 (run15 (c, w) ps).2 (rows ++ (pair_values <$> ps)).
Proof.
  revert c w rows. induction ps as [|p ps IH]; intros c w rows H; cbn.
  - by rewrite app_nil_r.
  - unfold run15 in *. cbn [foldl].
    pose proof (step15_rows _ _ p _ H) as H'.
    destruct (step15 (c, w) p) as [c' w'] eqn:E. cbn [fst snd] in H'.
    rewrite <- E. rewrite E. specialize (IH _ _ _ H').
    by rewrite <- app_assoc in IH.
Qed.

Lemma cell15_rows_loop trs c w rows :
  hj_rows c w rows →
  for_each_M cell15_row trs c w
  = (Ok (run15 (c, w) (omap record15 trs)).1, (run15 (c, w) (omap record15 trs)).2).
Proof.
  revert c w rows. induction trs as [|tr trs IH]; intros c w rows H; [done|].
  cbn [for_each_M omap list_omap]. unfold mbind at 1, M_bind at 1.
  rewrite (cell15_row_spec _ _ _ _ H).
  destruct (record15 tr) as [p|].
  - pose proof (step15_rows _ _ p _ H) as H'.
    unfold run15. cbn [foldl].
    destruct (step15 (c, w) p) as [c' w'] eqn:E. cbn [fst snd] in *.
    by rewrite (IH _ _ _ H').
  - by rewrite (IH _ _ _ H).
Qed.

Lemma cell15_file_spec c f w rows :
  hj_rows c w rows →
  cell15_file c f w
  = match file_records f.2 with
    | Ok ps => (Ok (run15 (c, w) ps).1, (run15 (c, w) ps).2)
    | Raise e => (Raise e, w)
    end.
Proof.
  intros H. unfold cell15_file, file_records.
  unfold mbind at 1, M_bind at 1, lift.
  destruct (table_at f.2 1) as [table|e]; [|done].
  by rewrite (cell15_rows_loop _ _ _ _ H).
Qed.

Lemma cell15_loop_spec files c w rows :
  hj_rows c w rows →
  cell15_loop c files w
  = (finish (scan_files files).2 (run15 (c, w) (scan_files files).1).1,
     (run15 (c, w) (scan_files files).1).2).
Proof.
  unfold cell15_loop.
  revert c w rows. induction files as [|f files IH]; intros c w rows H; [done|].
  cbn [for_each_M scan_files]. unfold mbind at 1, M_bind at 1.
  rewrite (cell15_file_spec _ _ _ _ H).
  destruct (file_records f.2) as [ps|e]; [|done].
  pose proof (run15_rows ps _ _ _ H) as H'.
  cbn [fst snd]. unfold run15 at 3 4. rewrite foldl_app. fold (run15 (c, w) ps).
  destruct (run15 (c, w) ps) as [c' w'] eqn:E. cbn [fst snd] in *.
  by rewrite (IH _ _ _ H').
Qed.

Lemma run15_facts ps c w :
  let cw := run15 (c, w) ps in
  conn_path cw.1 = conn_path c
  ∧ pending cw.1 = pending c ++ ((λ p, (cell15_insert, pair_values p)) <$> ps)
  ∧ sql_log cw.2 = sql_log w ++ ((λ p, (cell15_insert, pair_values p)) <$> ps)
  ∧ dbs cw.2 = dbs w
  ∧ fs cw.2 = fs w.
Proof.
  revert c w. induction ps as [|p ps IH]; intros c w; cbn.
  - by rewrite !app_nil_r.
  - unfold run15 in *. cbn [foldl].
    destruct (step15 (c, w) p) as [c' w'] eqn:E.
    destruct (IH c' w') as (H1 & H2 & H3 & H4 & H5).
    unfold step15 in E. cbn [fst snd] in E. injection E as <- <-.
    rewrite H1, H2, H3, H4, H5. cbn. by rewrite <- !app_assoc.
Qed.

Lemma commit_store c w : store (conn_path c) (commit c w).2 = working_db c w.
Proof.
  unfold commit, working_db. destruct (conn_txn c); cbn [snd]; [|done].
  apply store_set_store.
Qed.

Lemma commit_other c w : (commit c w).1 = Ok (Connection (conn_path c) None).
Proof. unfold commit. destruct c as [path [t|]]; done. Qed.

Lemma commit_log c w : sql_log (commit c w).2 = sql_log w.
Proof. unfold commit. by destruct (conn_txn c). Qed.

(** ** What a loop leaves as it is *)

#[global] Instance logs_only_refl q : Reflexive (logs_only q).
Proof. intros w. exists []. by rewrite app_nil_r. Qed.

#[global] Instance logs_only_trans q : Transitive (logs_only q).
Proof.
  intros w1 w2 w3 (l1 & H1 & F1) (l2 & H2 & F2). exists (l1 ++ l2).
  rewrite H2, H1, app_assoc. split; [done|]. by apply Forall_app.
Qed.

#[global] Instance same_stores_refl : Reflexive same_stores.
Proof. by intros w. Qed.

#[global] Instance same_stores_trans : Transitive same_stores.
Proof. intros w1 w2 w3 [H1 H2] [H3 H4]. split; congruence. Qed.

Section loop_invariant.
Context {A S : Type} (R : world → world → Prop) `{!Reflexive R, !Transitive R}.
Context (body : S → A → M S).
Hypothesis body_rel : ∀ s x w, R w (body s x w).2.

Lemma for_each_M_rel l s w : R w (for_each_M body l s w).2.
Proof.
  revert s w. induction l as [|x l IH]; intros s w; cbn [for_each_M].
  - reflexivity.
  - unfold mbind, M_bind. pose proof (body_rel s x w) as Hb.
    destruct (body s x w) as [[s'|e] w']; cbn [snd] in *; [|done].
    etrans; [exact Hb|apply IH].
Qed.

End loop_invariant.

Lemma execute_log c sql params w :
  sql_log (execute c sql params w).2 = sql_log w ++ [(sql, params)].
Proof.
  unfold execute. cbv zeta.
  destruct (parse_sql sql) as [[ine name cols|name cols vals|name]|]; [| | |done].
  - destruct (_ !! _); [by destruct ine|].
    destruct params; [|done]. by destruct (conn_txn c).
  - by destruct (execute_insert _ _ _ _ _).
  - destruct (_ !! _); [|done]. by destruct params.
Qed.

Lemma execute_insert_same_stores c sql params w name cols vals :
  parse_sql sql = Some (InsertInto name cols vals) →
  same_stores w (execute c sql params w).2.
Proof.
  intros Hp. unfold execute. cbv zeta. rewrite Hp.
  by destruct (execute_insert _ _ _ _ _).
Qed.

Lemma commit_logs_only q c w : logs_only q w (commit c w).2.
Proof. exists []. by rewrite commit_log, app_nil_r. Qed.

Lemma execute_logs_only c sql params w : logs_only sql w (execute c sql params w).2.
Proof.
  exists [(sql, params)]. split; [apply execute_log|]. by repeat constructor.
Qed.

(** Every statement that the three insert loops send has the text of the
    cell. *)
Lemma cell11_body_logs c tr w : logs_only cell11_query w (cell11_body c tr w).2.
Proof.
  unfold cell11_body, mbind, M_bind, lift.
  destruct (medal_of tr) as [medal|]; [|reflexivity].
  destruct (athlete_of tr) as [athlete|]; [|reflexivity].
  pose proof (execute_logs_only c cell11_query [VStr medal; VStr athlete] w) as He.
  destruct (execute _ _ _ w) as [[[c' rows]|e] w']; [|done].
  etrans; [exact He|apply commit_logs_only].
Qed.

Lemma cell15_row_logs c tr w : logs_only cell15_insert w (cell15_row c tr w).2.
Proof.
  unfold cell15_row, try_except, mbind, M_bind, lift, mret, M_ret.
  destruct (py_index _ 0) as [rank|]; [|case_decide; reflexivity].
  destruct (py_index _ 0) as [athlete|]; [|case_decide; reflexivity].
  pose proof (execute_logs_only c cell15_insert
                [VStr (strip rank); VStr (strip athlete)] w) as He.
  destruct (execute _ _ _ w) as [[[c' rows]|e] w']; cbn [snd] in *; [done|].
  by case_decide.
Qed.

Lemma cell15_file_logs c f w : logs_only cell15_insert w (cell15_file c f w).2.
Proof.
  unfold cell15_file, mbind, M_bind, lift.
  destruct (table_at _ 1); [|reflexivity].
  apply (for_each_M_rel _ _ cell15_row_logs).
Qed.

Lemma cell19_row_logs c tr w : logs_only cell19_insert w (cell19_row c tr w).2.
Proof.
  unfold cell19_row, try_except, mbind, M_bind. cbv zeta.
  pose proof (execute_logs_only c cell19_insert
    [py_opt (extract_first (extract_text [Child "td"] tr));
     py_opt (extract_first (extract_text [Child "td"; Child "a"] tr));
     py_opt (extract_first (extract_text [Child "td"; Child "b"] tr))] w) as He.
  destruct (execute _ _ _ w) as [[[c' rows]|e] w']; cbn [snd] in *.
  - pose proof (commit_logs_only cell19_insert c' w') as Hc.
    destruct (commit c' w') as [[c''|e] w'']; cbn [snd] in *.
    + by etrans.
    + case_decide; by etrans.
  - by case_decide.
Qed.

(** The loop of cell 15 commits nothing. *)
Lemma cell15_row_same_stores c tr w : same_stores w (cell15_row c tr w).2.
Proof.
  unfold cell15_row, try_except, mbind, M_bind, lift, mret, M_ret.
  destruct (py_index _ 0) as [rank|]; [|case_decide; reflexivity].
  destruct (py_index _ 0) as [athlete|]; [|case_decide; reflexivity].
  pose proof (execute_insert_same_stores c cell15_insert
                [VStr (strip rank); VStr (strip athlete)] w _ _ _ parse_cell15) as He.
  destruct (execute _ _ _ w) as [[[c' rows]|e] w']; cbn [snd] in *; [done|].
  by case_decide.
Qed.

Lemma cell15_loop_same_stores c files w : same_stores w (cell15_loop c files w).2.
Proof.
  apply (for_each_M_rel same_stores). clear. intros c f w.
  unfold cell15_file, mbind, M_bind, lift.
  destruct (table_at _ 1); [|reflexivity].
  apply (for_each_M_rel _ _ cell15_row_same_stores).
Qed.

(** ** The cells that create and read a table *)

Lemma create_cell_spec path sql name cols w :
  parse_sql sql = Some (CreateTable true name cols) →
  (connection ← connect path;
   '(connection, _) ← execute connection sql [];
   commit connection) w
  = (Ok (Connection path None),
     match store path w !! name with
     | Some _ => log_stmt sql [] w
     | None =>
         set_store path (<[name := SqlTable cols []]> (store path w))
           (log_stmt sql [] w)
     end).
Proof.
  intros Hp. unfold connect, mbind, M_bind, mret, M_ret.
  unfold execute. cbv zeta. rewrite Hp.
  unfold working_db. cbn [conn_txn conn_path]. rewrite store_log.
  by destruct (store path w !! name).
Qed.

Lemma select_cell_spec path sql name w t :
  parse_sql sql = Some (SelectAll name) →
  store path w !! name = Some t →
  (connection ← connect path;
   '(connection, rows) ← execute connection sql [];
   _ ← commit connection;
   mret rows) w
  = (Ok (tbl_rows t), log_stmt sql [] w).
Proof.
  intros Hp Ht. unfold connect, mbind, M_bind, mret, M_ret.
  unfold execute. cbv zeta. rewrite Hp.
  unfold working_db. cbn [conn_txn conn_path]. rewrite store_log, Ht.
  done.
Qed.

Lemma cell14_spec w :
  cell14 w
  = (Ok conn14,
     match store "results.db" w !! "high_jump_results" with
     | Some _ => log_stmt cell14_create [] w
     | None =>
         set_store "results.db"
           (<["high_jump_results" := SqlTable hj_cols []]> (store "results.db" w))
           (log_stmt cell14_create [] w)
     end).
Proof. apply (create_cell_spec _ _ _ _ _ parse_cell14). Qed.

Lemma cell16_spec w t :
  store "results.db" w !! "high_jump_results" = Some t →
  cell16 w = (Ok (tbl_rows t), log_stmt cell16_query [] w).
Proof. apply (select_cell_spec _ _ _ _ _ parse_cell16). Qed.

Lemma cell18_spec w :
  cell18 w
  = (Ok (Connection "1992_jump_results.db" None),
     match store "1992_jump_results.db" w !! "heights" with
     | Some _ => log_stmt cell18_db_table [] w
     | None =>
         set_store "1992_jump_results.db"
           (<["heights" := SqlTable heights_cols []]> (store "1992_jump_results.db" w))
           (log_stmt cell18_db_table [] w)
     end).
Proof. apply (create_cell_spec _ _ _ _ _ parse_cell18). Qed.

Lemma cell20_spec w t :
  store "1992_jump_results.db" w !! "heights" = Some t →
  cell20 w = (Ok (tbl_rows t), log_stmt cell20_query [] w).
Proof. apply (select_cell_spec _ _ _ _ _ parse_cell20). Qed.

Lemma cell15_run files w rows ps :
  store "results.db" w !! "high_jump_results" = Some (SqlTable hj_cols rows) →
  scan_files files = (ps, None) →
  ∃ w', cell15 conn14 files w = (Ok (), w')
        ∧ store "results.db" w' !! "high_jump_results"
          = Some (SqlTable hj_cols (rows ++ (pair_values <$> ps)))
        ∧ sql_log w' = sql_log w ++ entries15 ps.
Proof.
  intros Hr Hs. unfold cell15. unfold mbind at 1, M_bind at 1.
  rewrite (cell15_loop_spec _ _ _ rows) by done. rewrite Hs. cbn [finish fst snd].
  pose proof (run15_rows ps conn14 w rows Hr) as Hrows.
  destruct (run15_facts ps conn14 w) as (Hpath & _ & Hlog & _).
  destruct (run15 (conn14, w) ps) as [c' w']. cbn [fst snd] in *.
  unfold mbind, M_bind.
  pose proof (commit_other c' w') as H1. pose proof (commit_store c' w') as H2.
  pose proof (commit_log c' w') as H3.
  destruct (commit c' w') as [o w'']. cbn [fst snd] in *. subst o.
  exists w''. split; [done|]. rewrite Hpath in H2. cbn in H2.
  rewrite H2, H3. done.
Qed.

Lemma cell19_row_spec tr w :
  heights_ready w → cell19_row conn18 tr w = (Ok conn18, insert19 w tr).
Proof.
  intros [rows Hr]. unfold cell19_row, try_except, conn18. cbv zeta.
  fold (record19 tr).
  by rewrite (execute_commit _ _ _ _ _ (record19 tr) _ _ parse_cell19 Hr).
Qed.

Lemma insert19_ready w tr : heights_ready w → heights_ready (insert19 w tr).
Proof.
  intros [rows Hr]. unfold heights_ready, insert19.
  rewrite (insert_commit_store _ _ _ _ _ _ _ Hr), lookup_insert_eq.
  by eexists.
Qed.

Lemma cell19_loop trs w :
  heights_ready w →
  for_each_M cell19_row trs conn18 w = (Ok conn18, foldl insert19 w trs).
Proof.
  revert w. induction trs as [|tr trs IH]; intros w Hw; [done|].
  cbn [for_each_M foldl]. unfold mbind, M_bind.
  rewrite (cell19_row_spec _ _ Hw). apply IH. by apply insert19_ready.
Qed.

Lemma foldl_insert19_log trs w :
  sql_log (foldl insert19 w trs)
  = sql_log w ++ ((λ tr, (cell19_insert, record19 tr)) <$> trs).
Proof.
  revert w. induction trs as [|tr trs IH]; intros w; cbn [foldl fmap list_fmap].
  - by rewrite app_nil_r.
  - rewrite IH. unfold insert19. rewrite insert_commit_log.
    by rewrite <- app_assoc.
Qed.

Lemma xpath_no_td path tr :
  Forall (λ c, ¬ tag_is "td" c) (children tr) →
  extract_text (Child "td" :: path) tr = [].
Proof.
  intros H. unfold extract_text, xpath. cbn [foldl mbind list_bind eval_step].
  assert (filter (λ c, tag_is "td" c) (children tr) = []) as E.
  { induction H as [|c cs Hc _ IH]; [done|].
    rewrite filter_cons. by rewrite decide_False. }
  rewrite app_nil_r, E. clear. by induction path.
Qed.

(** A row without [td] child (a header row) is bound as three NULLs. *)
Lemma record19_header tr :
  Forall (λ c, ¬ tag_is "td" c) (children tr) →
  record19 tr = [VNone; VNone; VNone].
Proof. intros H. unfold record19. by rewrite !xpath_no_td. Qed.

(** Cell 15 passes over a row that lacks a field: nothing is sent and the
    loop goes on with the rows that follow. *)
Lemma cell15_row_skips c tr w e :
  row_pair tr = Raise e → cell15_row c tr w = (Ok c, w).
Proof.
  unfold cell15_row, try_except, row_pair.
  fold_fields tr.
  destruct (medal_of tr) as [m|e1] eqn:Hm.
  - destruct (athlete_of tr) as [n|e2] eqn:Hn; [intros [=]|].
    intros _. apply py_index_raise in Hn as ->. done.
  - intros _. apply py_index_raise in Hm as ->. done.
Qed.

Lemma cell15_loop_skips c tr trs w e :
  row_pair tr = Raise e →
  for_each_M cell15_row (tr :: trs) c w = for_each_M cell15_row trs c w.
Proof.
  intros H. cbn [for_each_M]. unfold mbind, M_bind.
  by rewrite (cell15_row_skips _ _ _ _ H).
Qed.

(** ** Document order *)

Lemma bind_sublist_pointwise {A B} (f g : A → list B) (l : list A) :
  (∀ x, f x `sublist_of` g x) → l ≫= f `sublist_of` l ≫= g.
Proof.
  intros H. induction l as [|x l IH]; cbn; [done|]. by apply sublist_app.
Qed.

Lemma descendants_unfold n : descendants n = children n ≫= λ c, c :: descendants c.
Proof. by destruct n. Qed.

Lemma sublist_bind_cons {A} (g : A → list A) (l : list A) :
  l `sublist_of` l ≫= λ c, c :: g c.
Proof.
  induction l as [|x l IH]; cbn; [done|].
  apply sublist_skip. by apply sublist_inserts_l.
Qed.

Lemma children_sublist_descendants n : children n `sublist_of` descendants n.
Proof. rewrite descendants_unfold. apply sublist_bind_cons. Qed.

(** The rows of a table are met in this order when the table is read from
    top to bottom. *)
Lemma rows_sublist_descendants t :
  xpath [Child "tr"] (xpath [Child "tbody"] [t]) `sublist_of` descendants t.
Proof.
  unfold xpath. cbn [foldl mbind list_bind eval_step]. rewrite app_nil_r.
  rewrite (descendants_unfold t).
  trans (children t ≫= λ c, filter (λ c0, tag_is "tr" c0) (children c)).
  - apply bind_sublist, sublist_filter.
  - apply bind_sublist_pointwise. intros c.
    apply sublist_cons. etrans; [apply sublist_filter|].
    apply children_sublist_descendants.
Qed.

Lemma table_at_inv response i table :
  table_at response i = Ok table →
  ∃ t, xpath_tables response !! i = Some t ∧ table = xpath [Child "tbody"] [t].
Proof.
  unfold table_at, py_index. destruct (_ !! i) as [t|]; cbn; [|done].
  intros [= <-]. by exists t.
Qed.

Lemma sent_app {A} w (r : outcome A * world) l :
  sql_log r.2 = sql_log w ++ l → sent w r = l.
Proof. intros H. unfold sent. rewrite H. apply drop_app_length. Qed.

Lemma scan_files_Forall2 files pss :
  Forall2 (λ f ps, file_records f.2 = Ok ps) files pss →
  scan_files files = (concat pss, None).
Proof.
  induction 1 as [|f ps files pss Hf _ IH]; [done|].
  cbn. by rewrite Hf, IH.
Qed.

(** * Theorems *)

(** ** The JSON object (cells 4 and 5) *)

(** C4: when cell 4 has processed all rows of the medal table, cell 5 writes
    one JSON object; its keys are the distinct medal labels of the rows, each
    once, and every entry maps a label to the name of a row with that
    label. *)
Theorem json_one_entry_per_label (table : list node) (d : pydict) (w : world) :
  cell4 table = Ok d →
  (cell5 d w).1 = Ok ()
  ∧ fs (cell5 d w).2 !! "1992_results.json" = Some (JsonFile d)
  ∧ ∃ ps, Forall2 (λ tr p, row_pair tr = Ok p) (xpath [Child "tr"] table) ps
      ∧ dict_keys d ≡ₚ remove_dups ps.*1
      ∧ ∀ l n, dict_get l d = Some n → (l, n) ∈ ps.
Proof.
  intros (ps & Hps & ->)%cell4_Ok. split; [done|]. split.
  { cbn. by rewrite lookup_insert_eq. }
  exists ps. split; [done|]. split.
  - apply NoDup_Permutation.
    + apply build_NoDup. constructor.
    + apply NoDup_remove_dups.
    + intros l. rewrite build_keys, elem_of_remove_dups. cbn.
      rewrite elem_of_nil. tauto.
  - intros l n. rewrite build_get. cbn.
    destruct (last _) as [[l' n']|] eqn:E; [|done].
    intros [= <-]. apply last_Some in E as [qs E].
    assert (Hin : (l', n') ∈ filter (λ p : string * string, p.1 = l) ps).
    { rewrite E. apply elem_of_app. right. left. }
    apply list_elem_of_filter in Hin as [Hl Hin]. cbn in Hl. by subst.
Qed.

Lemma json_one_entry_per_label_witness :
  cell4 Sample.table1996 = Ok [("Gold", "Mark Boswell"); ("Silver", "Ben Challenger")]
  ∧ ∃ ps, Forall2 (λ tr p, row_pair tr = Ok p)
            (xpath [Child "tr"] Sample.table1996) ps
      ∧ ["Gold"; "Silver"] ≡ₚ remove_dups ps.*1.
Proof.
  assert (H : cell4 Sample.table1996
              = Ok [("Gold", "Mark Boswell"); ("Silver", "Ben Challenger")])
    by (vm_compute; reflexivity).
  split; [exact H|].
  destruct (json_one_entry_per_label _ _ Sample.empty_world H)
    as (_ & _ & ps & Hps & Hkeys & _).
  exists ps. split; [exact Hps|exact Hkeys].
Defined.

(** C8: when several rows carry the same medal label, the entry of the JSON
    object for that label holds the name of the last of them: for every
    label, the entry is the name in the last pair with that label, and there
    is no entry when no row has the label. *)
Theorem json_last_row_wins (table : list node) (d : pydict)
    (ps : list (string * string)) (l : string) :
  cell4 table = Ok d →
  Forall2 (λ tr p, row_pair tr = Ok p) (xpath [Child "tr"] table) ps →
  dict_get l d = snd <$> last (filter (λ p, p.1 = l) ps).
Proof.
  intros (qs & Hqs & ->)%cell4_Ok Hps.
  rewrite (Forall2_functional _ _ _ Hps Hqs).
  rewrite build_get. by destruct (last _).
Qed.

Lemma json_last_row_wins_witness :
  dict_get "Silver" [("Gold", "Mark Boswell"); ("Silver", "Ben Challenger")]
  = snd <$> last (filter (λ p, p.1 = "Silver") Sample.pairs1996).
Proof.
  apply (json_last_row_wins Sample.table1996).
  - vm_compute. reflexivity.
  - repeat constructor.
Defined.

(** ** The CSV file (cells 7 and 8) *)

(** C5: when cell 7 has extracted [rows], cell 8 writes the header
    ["Medal", "Athlete"], which is [column_names], and then [rows]; there is
    one row for each [tr] of the table, in the same position, holding the
    medal and the athlete of that [tr]. *)
Theorem csv_header_then_rows (table : list node) (rows : list (list string))
    (w : world) :
  cell7 table = Ok rows →
  column_names = ["Medal"; "Athlete"]
  ∧ (cell8 rows w).1 = Ok ()
  ∧ fs (cell8 rows w).2 !! "1992_results.csv"
    = Some (CsvFile (column_names :: rows))
  ∧ Forall2 (λ tr r, ∃ m a, medal_of tr = Ok m ∧ athlete_of tr = Ok a ∧ r = [m; a])
      (xpath [Child "tr"] table) rows.
Proof.
  intros (ps & Hps & ->)%cell7_Ok. split; [done|]. split; [done|]. split.
  { cbn. by rewrite lookup_insert_eq. }
  apply Forall2_fmap_r. eapply Forall2_impl; [exact Hps|].
  intros tr [m n] [? ?]%row_pair_inv. by exists m, n.
Qed.

Lemma csv_header_then_rows_witness :
  fs (cell8 [["Gold"; "Steve Smith"]; ["Silver"; "Tim Forsyth"];
             ["Bronze"; "Takahiro Kimino"]] Sample.empty_world).2
    !! "1992_results.csv"
  = Some (CsvFile [["Medal"; "Athlete"]; ["Gold"; "Steve Smith"];
                   ["Silver"; "Tim Forsyth"]; ["Bronze"; "Takahiro Kimino"]]).
Proof.
  apply (csv_header_then_rows Sample.table1992).
  vm_compute. reflexivity.
Defined.

(** ** The table [results] (cells 10, 11 and 13) *)

Lemma cell10_numbered w old :
  (store "1992_results.db" w !! "results" = None ∧ old = [])
  ∨ store "1992_results.db" w !! "results"
    = Some (SqlTable results_cols (number_from 1 old)) →
  ∃ w1, cell10 w = (Ok conn11, w1)
        ∧ store "1992_results.db" w1 !! "results"
          = Some (SqlTable results_cols (number_from 1 old)).
Proof.
  intros [[H ->]|H].
  - rewrite (cell10_fresh _ H). eexists. split; [done|].
    by rewrite store_set_store, lookup_insert_eq.
  - rewrite cell10_present by done. eexists. split; [done|]. by rewrite store_log.
Qed.

Lemma cell11_numbered table ps w old :
  store "1992_results.db" w !! "results"
    = Some (SqlTable results_cols (number_from 1 old)) →
  Forall2 (λ tr p, row_pair tr = Ok p) (xpath [Child "tr"] table) ps →
  ∃ w1, cell11 table w = (Ok conn11, w1)
        ∧ store "1992_results.db" w1 !! "results"
          = Some (SqlTable results_cols
                    (number_from 1 (old ++ (pair_values <$> ps)))).
Proof.
  intros Hw Hps%scan_Forall2.
  rewrite cell11_run by (by eexists). rewrite Hps. cbn [finish fst snd].
  eexists. split; [done|]. by apply foldl_insert11_numbered.
Qed.

Lemma cell10_rows w old :
  (store "1992_results.db" w !! "results" = None ∧ old = [])
  ∨ store "1992_results.db" w !! "results" = Some (SqlTable results_cols old) →
  ∃ w1, cell10 w = (Ok conn11, w1)
        ∧ store "1992_results.db" w1 !! "results"
          = Some (SqlTable results_cols old).
Proof.
  intros [[H ->]|H].
  - rewrite (cell10_fresh _ H). eexists. split; [done|].
    by rewrite store_set_store, lookup_insert_eq.
  - rewrite cell10_present by done. eexists. split; [done|]. by rewrite store_log.
Qed.

Lemma cell11_from table ps w old :
  store "1992_results.db" w !! "results" = Some (SqlTable results_cols old) →
  Forall2 (λ tr p, row_pair tr = Ok p) (xpath [Child "tr"] table) ps →
  ∃ w1, cell11 table w = (Ok conn11, w1)
        ∧ store "1992_results.db" w1 !! "results"
          = Some (SqlTable results_cols
                    (old ++ number_from (next_rowid (SqlTable results_cols old))
                              (pair_values <$> ps))).
Proof.
  intros Hw Hps%scan_Forall2.
  rewrite cell11_run by (by eexists). rewrite Hps. cbn [finish fst snd].
  eexists. split; [done|]. by apply foldl_insert11_from.
Qed.

Lemma number_from_length k recs : length (number_from k recs) = length recs.
Proof. revert k. induction recs; intros k; cbn; [done|]. f_equal. auto. Qed.

Lemma has_room_bound n rows r :
  has_room n rows = true → r ∈ rows →
  (rowid_of results_cols r + Z.of_nat n ≤ 2 ^ 63 - 1)%Z.
Proof.
  unfold has_room. intros [_ H]%andb_prop Hr.
  rewrite forallb_forall in H. apply list_elem_of_In, H in Hr.
  destruct r as [|[| z |] r]; try done.
  change (rowid_of results_cols (VInt z :: r)) with z. lia.
Qed.

Lemma has_room_next n rows :
  has_room n rows = true →
  (next_rowid (SqlTable results_cols rows) + Z.of_nat n ≤ 2 ^ 63)%Z.
Proof.
  intros H. destruct rows as [|r0 rows'] eqn:E.
  - rewrite next_rowid_nil. unfold has_room in H. apply andb_prop in H as [H _]. lia.
  - rewrite <- E in *.
    destruct (next_rowid_attained results_cols rows) as (r & Hr & ->); [by subst|].
    pose proof (has_room_bound _ _ _ H Hr). lia.
Qed.

(** C6: cells 10 and 11 insert one row for every row of the medal table and
    commit after each; cell 13, on a connection of its own, then reads
    back the rows that the table held before, followed by the new rows in
    the order of their insertion.  The first new row has the identity that
    follows the largest one in the table, which exceeds every identity
    that was there, and each further row the next identity; on a database
    file without the table these are 1 to n. *)
Theorem results_read_back (table : list node) (ps : list (string * string))
    (w : world) (old : list (list value)) :
  (store "1992_results.db" w !! "results" = None ∧ old = [])
  ∨ store "1992_results.db" w !! "results" = Some (SqlTable results_cols old) →
  has_room (length ps) old = true →
  Forall2 (λ tr p, row_pair tr = Ok p) (xpath [Child "tr"] table) ps →
  ∃ rows new,
    ((_ ← cell10; _ ← cell11 table; cell13) w).1 = Ok rows
    ∧ rows = old ++ new
    ∧ length new = length ps
    ∧ (∀ (i : nat) p, ps !! i = Some p →
         new !! i
         = Some [VInt (next_rowid (SqlTable results_cols old) + Z.of_nat i);
                 VStr p.1; VStr p.2])
    ∧ (∀ r, r ∈ old →
         (rowid_of results_cols r < next_rowid (SqlTable results_cols old))%Z)
    ∧ (next_rowid (SqlTable results_cols old) + Z.of_nat (length ps) ≤ 2 ^ 63)%Z
    ∧ (old = [] →
       length rows = length ps
       ∧ ∀ (i : nat) p, ps !! i = Some p →
           rows !! i = Some [VInt (Z.of_nat i + 1); VStr p.1; VStr p.2]).
Proof.
  intros Hold Hroom Hps.
  destruct (cell10_rows w old Hold) as (w1 & E1 & H1).
  destruct (cell11_from _ _ _ _ H1 Hps) as (w2 & E2 & H2).
  unfold mbind, M_bind. rewrite E1, E2, (cell13_rows _ _ H2).
  cbn [fst tbl_rows]. eexists _, _. split; [done|]. split; [done|].
  assert (∀ (k : Z) (i : nat) p, ps !! i = Some p →
            number_from k (pair_values <$> ps) !! i
            = Some [VInt (k + Z.of_nat i); VStr p.1; VStr p.2]) as Hlook.
  { intros k i p Hi. by rewrite number_from_lookup, list_lookup_fmap, Hi. }
  split; [by rewrite number_from_length, length_fmap|].
  split; [by apply Hlook|].
  split; [by intros r; apply next_rowid_gt|].
  split; [by apply has_room_next|].
  intros ->. cbn [app]. rewrite next_rowid_nil. split.
  - by rewrite number_from_length, length_fmap.
  - intros i p Hi. rewrite (Hlook _ _ _ Hi). do 3 f_equal. lia.
Qed.

Lemma results_read_back_witness :
  ∃ rows new,
    ((_ ← cell10; _ ← cell11 Sample.table1992; cell13) SampleExtra.sparse_world).1
    = Ok rows
    ∧ rows = [[VInt 4; VStr "Gold"; VStr "A"]; [VInt 9; VStr "Silver"; VStr "B"]]
             ++ new
    ∧ new !! 0%nat = Some [VInt 10; VStr "Gold"; VStr "Steve Smith"]
    ∧ new !! 2%nat = Some [VInt 12; VStr "Bronze"; VStr "Takahiro Kimino"].
Proof.
  destruct (results_read_back Sample.table1992 Sample.pairs1992
              SampleExtra.sparse_world
              [[VInt 4; VStr "Gold"; VStr "A"]; [VInt 9; VStr "Silver"; VStr "B"]])
    as (rows & new & H1 & H2 & _ & H3 & _).
  - right. vm_compute. reflexivity.
  - vm_compute. reflexivity.
  - repeat constructor.
  - exists rows, new. split; [exact H1|]. split; [exact H2|]. split.
    + apply (H3 0%nat ("Gold", "Steve Smith")). reflexivity.
    + apply (H3 2%nat ("Bronze", "Takahiro Kimino")). reflexivity.
Defined.

(** ** Running a pass twice *)

Lemma cell14_rows w rows :
  (store "results.db" w !! "high_jump_results" = None ∧ rows = [])
  ∨ store "results.db" w !! "high_jump_results" = Some (SqlTable hj_cols rows) →
  ∃ w1, cell14 w = (Ok conn14, w1)
        ∧ store "results.db" w1 !! "high_jump_results"
          = Some (SqlTable hj_cols rows)
        ∧ sql_log w1 = sql_log w ++ [(cell14_create, [])].
Proof.
  intros [[H ->]|H]; rewrite cell14_spec, H; (eexists; split; [done|]).
  - by rewrite store_set_store, lookup_insert_eq.
  - by rewrite store_log.
Qed.

Lemma filter_length_twice {A} (P : A → Prop) `{!∀ x, Decision (P x)} (l : list A) :
  length (filter P (l ++ l)) = 2 * length (filter P l).
Proof. rewrite filter_app, length_app. lia. Qed.

(** C7: a second pass over the same input adds every record once more.
    After two passes of cells 10 and 11 on a fresh database the table
    [results] holds the records of the medal table twice, the second copy
    with new identities; after two passes of cells 14 and 15 the table
    [high_jump_results] holds the records of the files twice, so that every
    row occurs twice as often as in the input. *)
Theorem second_run_duplicates (table : list node) (ps : list (string * string))
    (html_files : list (string * node)) (pss : list (list (string * string)))
    (w : world) :
  store "1992_results.db" w !! "results" = None →
  store "results.db" w !! "high_jump_results" = None →
  Forall2 (λ tr p, row_pair tr = Ok p) (xpath [Child "tr"] table) ps →
  Forall2 (λ f qs, file_records f.2 = Ok qs) html_files pss →
  ((_ ← cell10; _ ← cell11 table; _ ← cell10; _ ← cell11 table; cell13) w).1
  = Ok (number_from 1 ((pair_values <$> ps) ++ (pair_values <$> ps)))
  ∧ ∃ rows,
      ((conn ← cell14; _ ← cell15 conn html_files;
        conn ← cell14; _ ← cell15 conn html_files; cell16) w).1 = Ok rows
      ∧ rows = (pair_values <$> concat pss) ++ (pair_values <$> concat pss)
      ∧ ∀ r, length (filter (λ x, x = r) rows)
             = 2 * length (filter (λ x, x = r) (pair_values <$> concat pss)).
Proof.
  intros Hf1 Hf2 Hps Hpss. split.
  - destruct (cell10_numbered w []) as (w1 & E1 & H1); [by left|].
    destruct (cell11_numbered _ _ _ _ H1 Hps) as (w2 & E2 & H2).
    destruct (cell10_numbered w2 _ (or_intror H2)) as (w3 & E3 & H3).
    destruct (cell11_numbered _ _ _ _ H3 Hps) as (w4 & E4 & H4).
    unfold mbind, M_bind. rewrite E1, E2, E3, E4, (cell13_rows _ _ H4).
    done.
  - apply scan_files_Forall2 in Hpss.
    destruct (cell14_rows w []) as (w1 & E1 & H1 & _); [by left|].
    destruct (cell15_run _ _ _ _ H1 Hpss) as (w2 & E2 & H2 & _).
    destruct (cell14_rows w2 _ (or_intror H2)) as (w3 & E3 & H3 & _).
    destruct (cell15_run _ _ _ _ H3 Hpss) as (w4 & E4 & H4 & _).
    unfold mbind, M_bind. rewrite E1, E2, E3, E4, (cell16_spec _ _ H4).
    eexists. split; [done|]. split; [done|].
    intros r. apply filter_length_twice.
Qed.

Lemma second_run_duplicates_witness :
  ((_ ← cell10; _ ← cell11 Sample.table1992;
    _ ← cell10; _ ← cell11 Sample.table1992; cell13) Sample.empty_world).1
  = Ok (number_from 1 ((pair_values <$> Sample.pairs1992)
                       ++ (pair_values <$> Sample.pairs1992)))
  ∧ ∃ rows,
      ((conn ← cell14; _ ← cell15 conn Sample.html_files;
        conn ← cell14; _ ← cell15 conn Sample.html_files; cell16)
         Sample.empty_world).1 = Ok rows
      ∧ rows = (pair_values <$> concat [Sample.pairs1992; Sample.pairs1996])
               ++ (pair_values <$> concat [Sample.pairs1992; Sample.pairs1996])
      ∧ ∀ r, length (filter (λ x, x = r) rows)
             = 2 * length (filter (λ x, x = r)
                             (pair_values <$> concat [Sample.pairs1992; Sample.pairs1996])).
Proof.
  apply (second_run_duplicates Sample.table1992 Sample.pairs1992
           Sample.html_files [Sample.pairs1992; Sample.pairs1996]
           Sample.empty_world).
  - vm_compute. reflexivity.
  - vm_compute. reflexivity.
  - repeat constructor.
  - repeat constructor.
Defined.

(** ** Rows that lack a field *)

(** Cell 19 sends an INSERT for every row of the table, whatever the row
    holds. *)
Lemma cell19_inserts_every_row response table1 w :
  heights_ready w →
  table_at response 3 = Ok table1 →
  ∃ w', cell19 conn18 response w = (Ok conn18, w')
        ∧ sent w (cell19 conn18 response w)
          = (λ tr, (cell19_insert, record19 tr)) <$> xpath [Child "tr"] table1.
Proof.
  intros Hw Ht. unfold cell19, mbind, M_bind, lift. rewrite Ht.
  rewrite (cell19_loop _ _ Hw). eexists. split; [done|].
  apply sent_app. cbn [snd]. apply foldl_insert19_log.
Qed.

(** C1, cell 19: the header row of the results table has no [td], so that
    none of the three fields is there; the loop does not pass over it, it
    inserts the row with three NULLs, here with identity 1, before the
    rows of the athletes. *)
Theorem heights_header_row_inserted :
  extract_text [Child "td"] Sample.header_row = []
  ∧ extract_text [Child "td"; Child "a"] Sample.header_row = []
  ∧ extract_text [Child "td"; Child "b"] Sample.header_row = []
  ∧ ((connection ← cell18; _ ← cell19 connection Sample.page1992; cell20)
       Sample.empty_world).1
    = Ok [[VInt 1; VNone; VNone; VNone];
          [VInt 2; VStr "1"; VStr "Tim Forsyth"; VStr "2.16"];
          [VInt 3; VStr "3"; VStr "Xu Xiaodong"; VStr "2.16"]].
Proof. vm_compute. done. Qed.

(** ** The statements and the tables *)

(** Against C2 as it is worded: writing [identity_plus_text] for what it
    says of a table, the statement of cell 14 does not have it;
    [high_jump_results] has the two text columns and no identity column. *)
Lemma high_jump_results_without_identity :
  ¬ Forall (λ sql, identity_plus_text sql = true)
      [cell10_db_table; cell14_create; cell18_db_table].
Proof.
  intros H. apply Forall_cons in H as [_ H]. apply Forall_cons in H as [H _].
  vm_compute in H. discriminate.
Qed.

Lemma cell11_logs table w : logs_only cell11_query w (cell11 table w).2.
Proof.
  unfold cell11, connect, mbind, M_bind, mret, M_ret.
  apply (for_each_M_rel _ _ cell11_body_logs).
Qed.

Lemma cell15_loop_logs c files w : logs_only cell15_insert w (cell15_loop c files w).2.
Proof. apply (for_each_M_rel _ _ cell15_file_logs). Qed.

Lemma cell19_logs c response w : logs_only cell19_insert w (cell19 c response w).2.
Proof.
  unfold cell19, mbind, M_bind, lift.
  destruct (table_at response 3); [|reflexivity].
  apply (for_each_M_rel _ _ cell19_row_logs).
Qed.

(** C2, as the code has it: the three tables are created with IF NOT
    EXISTS and every column that is not the identity is TEXT; [results]
    and [heights] have an identity column, [id integer primary key], and
    [high_jump_results] has none.  Creating a table that is there leaves
    the database file as it is.  The three INSERT statements have a
    placeholder for every value, and whatever the documents hold, every
    statement that the loops of cells 11, 15 and 19 send is the fixed text
    of the cell: the values travel as bound parameters. *)
Theorem tables_created_and_inserts_bound :
  parse_sql cell10_db_table = Some (CreateTable true "results" results_cols)
  ∧ parse_sql cell14_create
    = Some (CreateTable true "high_jump_results" hj_cols)
  ∧ parse_sql cell18_db_table = Some (CreateTable true "heights" heights_cols)
  ∧ is_rowid_alias <$> results_cols = [true; false; false]
  ∧ is_rowid_alias <$> heights_cols = [true; false; false; false]
  ∧ is_rowid_alias <$> hj_cols = [false; false]
  ∧ Forall (λ c, is_rowid_alias c = false → col_type c = "TEXT")
      (results_cols ++ hj_cols ++ heights_cols)
  ∧ (∀ w : world,
       (is_Some (store "1992_results.db" w !! "results") →
        dbs (cell10 w).2 = dbs w)
       ∧ (is_Some (store "results.db" w !! "high_jump_results") →
          dbs (cell14 w).2 = dbs w)
       ∧ (is_Some (store "1992_jump_results.db" w !! "heights") →
          dbs (cell18 w).2 = dbs w))
  ∧ Forall (λ sql, parameterized sql = true)
      [cell11_query; cell15_insert; cell19_insert]
  ∧ ∀ (table : list node) (html_files : list (string * node)) (response : node)
      (c : sqlite_connection) (w : world),
      logs_only cell11_query w (cell11 table w).2
      ∧ logs_only cell15_insert w (cell15_loop c html_files w).2
      ∧ logs_only cell19_insert w (cell19 c response w).2.
Proof.
  split; [apply parse_cell10|]. split; [apply parse_cell14|].
  split; [apply parse_cell18|]. do 3 (split; [done|]).
  split. { repeat constructor; by intros [=]. }
  split.
  { intros w. split; [|split].
    - intros H. by rewrite (cell10_present _ H).
    - intros [t H]. by rewrite cell14_spec, H.
    - intros [t H]. by rewrite cell18_spec, H. }
  split. { repeat constructor. }
  intros table files response c w.
  split; [apply cell11_logs|]. split; [apply cell15_loop_logs|apply cell19_logs].
Qed.

(** ** Commits *)

(** Against C3 as it is worded: the loop of cell 15 over two files; when it
    ends, the inserts of both files are pending in one transaction and the
    table in the database file is still empty. *)
Lemma batch_inserts_pending_across_files :
  ∃ c' w',
    (conn ← cell14; cell15_loop conn Sample.html_files) Sample.empty_world
    = (Ok c', w')
    ∧ file_records Sample.page1992 = Ok Sample.pairs1992
    ∧ file_records Sample.page1996 = Ok Sample.pairs1996
    ∧ pending c' = entries15 (Sample.pairs1992 ++ Sample.pairs1996)
    ∧ rows_of "results.db" "high_jump_results" w' = [].
Proof. eexists _, _. vm_compute. done. Qed.

(** C3, as the code has it: cell 11 commits after each insert, so that
    after an iteration nothing is pending and the row is in the database
    file.  Cell 15 commits once, after the loop over all files: the loop
    writes nothing to the database file, the inserts of all files are
    pending together when it ends, and the commit that follows writes them
    all. *)
Theorem commit_points (tr : node) (p : string * string) (w : world)
    (html_files : list (string * node)) (pss : list (list (string * string)))
    (w2 : world) (rows : list (list value)) :
  results_ready w →
  row_pair tr = Ok p →
  store "results.db" w2 !! "high_jump_results" = Some (SqlTable hj_cols rows) →
  Forall2 (λ f qs, file_records f.2 = Ok qs) html_files pss →
  (∃ c' w' id,
     cell11_body conn11 tr w = (Ok c', w') ∧ pending c' = []
     ∧ rows_of "1992_results.db" "results" w'
       = rows_of "1992_results.db" "results" w ++ [VInt id :: pair_values p])
  ∧ (∃ c' w',
       cell15_loop conn14 html_files w2 = (Ok c', w')
       ∧ dbs w' = dbs w2
       ∧ pending c' = entries15 (concat pss))
  ∧ (∃ w',
       cell15 conn14 html_files w2 = (Ok (), w')
       ∧ rows_of "results.db" "high_jump_results" w'
         = rows ++ (pair_values <$> concat pss)).
Proof.
  intros Hw Hp Hr Hpss%scan_files_Forall2. split; [|split].
  - rewrite (cell11_body_ok _ _ _ Hw Hp). destruct Hw as [old Hw].
    eexists _, _, _. split; [done|]. split; [done|].
    unfold rows_of. by rewrite (insert11_rows _ _ _ Hw), Hw.
  - rewrite (cell15_loop_spec _ _ _ rows) by done. rewrite Hpss.
    destruct (run15_facts (concat pss) conn14 w2) as (_ & Hpend & _ & Hdbs & _).
    eexists _, _. split; [done|]. done.
  - destruct (cell15_run _ _ _ _ Hr Hpss) as (w' & E & Hrows & _).
    exists w'. split; [done|]. unfold rows_of. by rewrite Hrows.
Qed.

Lemma commit_points_witness :
  (∃ c' w' id,
     cell11_body conn11 (Sample.medal_row "Gold" "Steve Smith") (cell10 Sample.empty_world).2
     = (Ok c', w') ∧ pending c' = []
     ∧ rows_of "1992_results.db" "results" w'
       = rows_of "1992_results.db" "results" (cell10 Sample.empty_world).2
         ++ [VInt id :: pair_values ("Gold", "Steve Smith")])
  ∧ (∃ c' w',
       cell15_loop conn14 Sample.html_files (cell14 Sample.empty_world).2 = (Ok c', w')
       ∧ dbs w' = dbs (cell14 Sample.empty_world).2
       ∧ pending c' = entries15 (concat [Sample.pairs1992; Sample.pairs1996]))
  ∧ (∃ w',
       cell15 conn14 Sample.html_files (cell14 Sample.empty_world).2 = (Ok (), w')
       ∧ rows_of "results.db" "high_jump_results" w'
         = [] ++ (pair_values <$> concat [Sample.pairs1992; Sample.pairs1996])).
Proof.
  apply (commit_points (Sample.medal_row "Gold" "Steve Smith")
           ("Gold", "Steve Smith") (cell10 Sample.empty_world).2
           Sample.html_files [Sample.pairs1992; Sample.pairs1996]
           (cell14 Sample.empty_world).2 []).
  - exists []. vm_compute. reflexivity.
  - vm_compute. reflexivity.
  - vm_compute. reflexivity.
  - repeat constructor.
Defined.

(** ** Order *)

Lemma cell15_file_sent c f w rows table :
  hj_rows c w rows →
  table_at f.2 1 = Ok table →
  sent w (cell15_file c f w) = entries15 (omap record15 (xpath [Child "tr"] table)).
Proof.
  intros Hr Ht. rewrite (cell15_file_spec _ _ _ _ Hr).
  unfold file_records. rewrite Ht. cbn [mbind outcome_bind].
  apply sent_app. cbn [snd].
  by destruct (run15_facts (omap record15 (xpath [Child "tr"] table)) c w)
    as (_ & _ & Hlog & _).
Qed.

Lemma cell15_loop_sent c files w rows :
  hj_rows c w rows →
  sent w (cell15_loop c files w) = entries15 (scan_files files).1.
Proof.
  intros Hr. rewrite (cell15_loop_spec _ _ _ _ Hr).
  apply sent_app. cbn [snd].
  by destruct (run15_facts (scan_files files).1 c w) as (_ & _ & Hlog & _).
Qed.

Lemma cell11_sent table w :
  results_ready w →
  sent w (cell11 table w)
  = (λ p, (cell11_query, pair_values p)) <$> (scan (xpath [Child "tr"] table)).1.
Proof.
  intros Hw. rewrite (cell11_run _ _ Hw). apply sent_app. cbn [snd].
  apply foldl_insert11_log.
Qed.

(** C9: the [tr] rows that the loops visit are the rows of the table in
    document order; the CSV rows follow them one for one, cell 11 sends
    its inserts in that order and the table receives them in that order,
    and cell 15 sends, for each file in turn, the rows that have both
    fields in that order (a row that lacks one is left out). *)
Theorem records_in_document_order (response : node) (table : list node)
    (ps : list (string * string)) (w : world)
    (html_files : list (string * node)) (pss : list (list (string * string)))
    (c : sqlite_connection) (w2 : world) (rows2 : list (list value)) :
  table_at response 1 = Ok table →
  Forall2 (λ tr p, row_pair tr = Ok p) (xpath [Child "tr"] table) ps →
  results_ready w →
  Forall2 (λ f qs, file_records f.2 = Ok qs) html_files pss →
  hj_rows c w2 rows2 →
  (∃ t, xpath_tables response !! 1 = Some t
        ∧ xpath [Child "tr"] table `sublist_of` descendants t)
  ∧ cell7 table = Ok ((λ p, [p.1; p.2]) <$> ps)
  ∧ sent w (cell11 table w) = (λ p, (cell11_query, pair_values p)) <$> ps
  ∧ (∃ new, rows_of "1992_results.db" "results" (cell11 table w).2
            = rows_of "1992_results.db" "results" w ++ new
            ∧ tail <$> new = pair_values <$> ps)
  ∧ file_records response = Ok (omap record15 (xpath [Child "tr"] table))
  ∧ sent w2 (cell15_loop c html_files w2) = entries15 (concat pss).
Proof.
  intros Ht Hps Hw Hpss Hc.
  split.
  { apply table_at_inv in Ht as (t & Ht & ->). exists t. split; [done|].
    apply rows_sublist_descendants. }
  split. { apply cell7_Ok. by exists ps. }
  pose proof (scan_Forall2 _ _ Hps) as Hscan.
  split. { rewrite (cell11_sent _ _ Hw). by rewrite Hscan. }
  split.
  { rewrite (cell11_run _ _ Hw), Hscan. cbn [fst snd]. destruct Hw as [old Hw].
    destruct (foldl_insert11_payload ps _ _ Hw) as (new & Hn & Htl).
    exists new. unfold rows_of. by rewrite Hn, Hw. }
  split. { unfold file_records. by rewrite Ht. }
  rewrite (cell15_loop_sent _ _ _ _ Hc).
  by rewrite (scan_files_Forall2 _ _ Hpss).
Qed.

Lemma records_in_document_order_witness :
  (∃ t, xpath_tables Sample.page1992 !! 1 = Some t
        ∧ xpath [Child "tr"] Sample.table1992 `sublist_of` descendants t)
  ∧ cell7 Sample.table1992 = Ok ((λ p, [p.1; p.2]) <$> Sample.pairs1992)
  ∧ sent (cell10 Sample.empty_world).2
      (cell11 Sample.table1992 (cell10 Sample.empty_world).2)
    = (λ p, (cell11_query, pair_values p)) <$> Sample.pairs1992
  ∧ sent (cell14 Sample.empty_world).2
      (cell15_loop conn14 Sample.html_files (cell14 Sample.empty_world).2)
    = entries15 (concat [Sample.pairs1992; Sample.pairs1996]).
Proof.
  destruct (records_in_document_order Sample.page1992 Sample.table1992
              Sample.pairs1992 (cell10 Sample.empty_world).2
              Sample.html_files [Sample.pairs1992; Sample.pairs1996]
              conn14 (cell14 Sample.empty_world).2 [])
    as (H1 & H2 & H3 & _ & _ & H4).
  - vm_compute. reflexivity.
  - repeat constructor.
  - exists []. vm_compute. reflexivity.
  - repeat constructor.
  - vm_compute. reflexivity.
  - split; [exact H1|]. split; [exact H2|]. split; [exact H3|exact H4].
Defined.

(** ** Two runs *)











(** * Further properties of the cells *)

(** ** Rows and pages that lack something *)

Lemma py_index_head {A} (l : list A) x : py_index l 0 = Ok x ↔ head l = Some x.
Proof. unfold py_index. destruct l; cbn; split; congruence. Qed.

Lemma py_index_nonempty {A} (l : list A) : (∃ x, py_index l 0 = Ok x) ↔ l ≠ [].
Proof.
  unfold py_index. destruct l as [|x l]; cbn.
  - split; [by intros [? ?]|done].
  - split; [done|]. by exists x.
Qed.

Lemma row_pair_fields tr :
  (∃ p, row_pair tr = Ok p)
  ↔ extract_text [Child "td"; Child "b"] tr ≠ []
    ∧ extract_text [Child "td"; Child "a"] tr ≠ [].
Proof.
  rewrite <- !py_index_nonempty. fold (medal_of tr) (athlete_of tr). split.
  - intros [p [Hm Ha]%row_pair_inv]. eauto.
  - intros [[m Hm] [a Ha]]. exists (m, a). by apply row_pair_inv.
Qed.

Lemma scan_app_raise good bad rest ps e :
  Forall2 (λ tr p, row_pair tr = Ok p) good ps →
  row_pair bad = Raise e →
  scan (good ++ bad :: rest) = (ps, Some e).
Proof.
  intros Hg Hb. induction Hg as [|tr p good ps Hp _ IH]; cbn.
  - by rewrite Hb.
  - by rewrite Hp, IH.
Qed.

Lemma scan_raise trs e :
  (scan trs).2 = Some e → e = IndexError ∧ ∃ tr, tr ∈ trs ∧ row_pair tr = Raise e.
Proof.
  induction trs as [|tr trs IH]; cbn; [done|].
  destruct (row_pair tr) as [p|e'] eqn:E; cbn.
  - intros [He (tr' & Hin & Hr)]%IH. split; [done|]. exists tr'. split; [by right|done].
  - intros [= ->]. split; [by eapply row_pair_raise|]. exists tr. split; [left|done].
Qed.

Lemma raised_finish {A} e (a : A) : raised (finish e a) = e.
Proof. by destruct e. Qed.

Lemma scan_none trs :
  (scan trs).2 = None
  ↔ Forall (λ tr, extract_text [Child "td"; Child "b"] tr ≠ []
                  ∧ extract_text [Child "td"; Child "a"] tr ≠ []) trs.
Proof.
  induction trs as [|tr trs IH]; [by split|].
  cbn [scan]. rewrite Forall_cons, <- row_pair_fields, <- IH.
  destruct (row_pair tr) as [p|e]; cbn [snd].
  - split; [by eauto|by intros [_ ?]].
  - split; [done|]. by intros [[? ?] _].
Qed.

(** X3: cells 4 and 7 end in the same way on every table; the only
    exception either raises is [IndexError], and they return exactly when
    every row has a medal text and an athlete text. *)
Theorem cell4_cell7_raise_together (table : list node) :
  raised (cell4 table) = raised (cell7 table)
  ∧ (raised (cell4 table) = None ∨ raised (cell4 table) = Some IndexError)
  ∧ (raised (cell4 table) = None
     ↔ Forall (λ tr, extract_text [Child "td"; Child "b"] tr ≠ []
                     ∧ extract_text [Child "td"; Child "a"] tr ≠ [])
         (xpath [Child "tr"] table)).
Proof.
  rewrite cell4_scan, cell7_scan, !raised_finish. split; [done|]. split.
  - destruct (scan _).2 as [e|] eqn:E; [|by left].
    right. by apply scan_raise in E as [-> _].
  - apply scan_none.
Qed.

Lemma row_pair_missing tr :
  extract_text [Child "td"; Child "b"] tr = []
  ∨ extract_text [Child "td"; Child "a"] tr = [] →
  row_pair tr = Raise IndexError.
Proof.
  intros H. destruct (row_pair tr) as [p|e] eqn:E.
  - assert (∃ p, row_pair tr = Ok p) as [Hb Ha]%row_pair_fields by eauto.
    by destruct H.
  - by rewrite (row_pair_raise _ _ E).
Qed.

(** X1: in the row loop of cell 15 a row without medal text, or without
    athlete text, changes nothing: no statement is sent and no exception
    leaves the row; wherever the row stands, the loop gives what it gives
    without it. *)
Theorem cell15_passes_over_incomplete_row (before after : list node) (tr : node)
    (c : sqlite_connection) (w : world) :
  extract_text [Child "td"; Child "b"] tr = []
  ∨ extract_text [Child "td"; Child "a"] tr = [] →
  cell15_row c tr w = (Ok c, w)
  ∧ for_each_M cell15_row (before ++ tr :: after) c w
    = for_each_M cell15_row (before ++ after) c w.
Proof.
  intros H%row_pair_missing. split; [by eapply cell15_row_skips|].
  revert c w. induction before as [|tr0 before IH]; intros c w.
  - by eapply cell15_loop_skips.
  - cbn [app for_each_M]. unfold mbind, M_bind.
    destruct (cell15_row c tr0 w) as [[c'|e] w']; [apply IH|done].
Qed.

Lemma cell15_passes_over_incomplete_row_witness :
  cell15_row conn14 (Sample.row [Sample.td [Text "Event"]]) (cell14 Sample.empty_world).2
  = (Ok conn14, (cell14 Sample.empty_world).2)
  ∧ for_each_M cell15_row
      ([Sample.medal_row "Gold" "A"] ++ Sample.row [Sample.td [Text "Event"]]
         :: [Sample.medal_row "Silver" "B"])
      conn14 (cell14 Sample.empty_world).2
    = for_each_M cell15_row
        ([Sample.medal_row "Gold" "A"] ++ [Sample.medal_row "Silver" "B"])
        conn14 (cell14 Sample.empty_world).2.
Proof.
  apply (cell15_passes_over_incomplete_row [Sample.medal_row "Gold" "A"]
           [Sample.medal_row "Silver" "B"]).
  left. vm_compute. reflexivity.
Defined.

(** X2: cell 11 has no handler.  At the first row that lacks a field it
    raises [IndexError]; the rows before it are inserted and committed, in
    order, and nothing is sent for that row and the rows after it. *)
Theorem cell11_stops_at_incomplete_row (table : list node)
    (good rest : list node) (bad : node) (ps : list (string * string))
    (w : world) (rows : list (list value)) :
  store "1992_results.db" w !! "results" = Some (SqlTable results_cols rows) →
  xpath [Child "tr"] table = good ++ bad :: rest →
  Forall2 (λ tr p, medal_of tr = Ok p.1 ∧ athlete_of tr = Ok p.2) good ps →
  extract_text [Child "td"; Child "b"] bad = []
  ∨ extract_text [Child "td"; Child "a"] bad = [] →
  ∃ w' new,
    cell11 table w = (Raise IndexError, w')
    ∧ sent w (cell11 table w) = (λ p, (cell11_query, [VStr p.1; VStr p.2])) <$> ps
    ∧ rows_of "1992_results.db" "results" w' = rows ++ new
    ∧ tail <$> new = (λ p, [VStr p.1; VStr p.2]) <$> ps.
Proof.
  intros Hw Htrs Hgood Hbad%row_pair_missing.
  assert (Forall2 (λ tr p, row_pair tr = Ok p) good ps) as Hg.
  { eapply Forall2_impl; [exact Hgood|]. intros tr p. by rewrite row_pair_inv. }
  pose proof (scan_app_raise _ _ rest _ _ Hg Hbad) as Hscan.
  assert (results_ready w) as Hr by (by eexists).
  destruct (foldl_insert11_payload ps _ _ Hw) as (new & Hn & Htl).
  exists (foldl insert11 w ps), new.
  rewrite (cell11_sent _ _ Hr), (cell11_run _ _ Hr), Htrs, Hscan. cbn [fst snd finish].
  split; [done|]. split; [done|]. split; [|done].
  unfold rows_of. by rewrite Hn.
Qed.

Lemma cell11_stops_at_incomplete_row_witness :
  ∃ w' new,
    cell11 SampleExtra.broken_table (cell10 Sample.empty_world).2
    = (Raise IndexError, w')
    ∧ sent (cell10 Sample.empty_world).2
        (cell11 SampleExtra.broken_table (cell10 Sample.empty_world).2)
      = (λ p, (cell11_query, [VStr p.1; VStr p.2])) <$> [("Gold", "Mark Boswell")]
    ∧ rows_of "1992_results.db" "results" w' = [] ++ new
    ∧ tail <$> new = (λ p, [VStr p.1; VStr p.2]) <$> [("Gold", "Mark Boswell")].
Proof.
  apply (cell11_stops_at_incomplete_row SampleExtra.broken_table
           [Sample.medal_row "Gold" "Mark Boswell"]
           [Sample.medal_row "Bronze" "Ben Challenger"]
           (Sample.row [Sample.td [Sample.bold "Silver"]; Sample.td [Text "vacant"]])).
  - vm_compute. reflexivity.
  - vm_compute. reflexivity.
  - repeat constructor.
  - right. vm_compute. reflexivity.
Defined.

Lemma table_at_short response i :
  length (xpath_tables response) ≤ i → table_at response i = Raise IndexError.
Proof.
  intros H. unfold table_at, py_index. by rewrite lookup_ge_None_2.
Qed.

Lemma scan_files_app_raise good bad rest pss e :
  Forall2 (λ f qs, file_records f.2 = Ok qs) good pss →
  file_records bad.2 = Raise e →
  scan_files (good ++ bad :: rest) = (concat pss, Some e).
Proof.
  intros Hg Hb. induction Hg as [|f qs good pss Hf _ IH]; cbn.
  - by rewrite Hb.
  - by rewrite Hf, IH.
Qed.

(** X4: the table lookup of cell 15 stands outside the [try].  A file with
    fewer than two tables ends the whole batch with [IndexError]: the
    inserts of the files before it have been sent, but the commit is not
    reached, the database file is as before, and a read-back by cell 16
    gives the rows that were there. *)
Theorem batch_aborts_on_page_without_table (good rest : list (string * node))
    (bad : string * node) (pss : list (list (string * string))) (w : world)
    (rows : list (list value)) :
  store "results.db" w !! "high_jump_results" = Some (SqlTable hj_cols rows) →
  Forall2 (λ f qs, file_records f.2 = Ok qs) good pss →
  length (xpath_tables bad.2) ≤ 1 →
  ∃ w',
    cell15 conn14 (good ++ bad :: rest) w = (Raise IndexError, w')
    ∧ sent w (cell15 conn14 (good ++ bad :: rest) w) = entries15 (concat pss)
    ∧ dbs w' = dbs w
    ∧ (cell16 w').1 = Ok rows.
Proof.
  intros Hw Hg Hbad%table_at_short.
  assert (file_records bad.2 = Raise IndexError) as Hf.
  { unfold file_records. by rewrite Hbad. }
  pose proof (scan_files_app_raise _ _ rest _ _ Hg Hf) as Hscan.
  unfold cell15, mbind at 1 3, M_bind at 1 3.
  rewrite (cell15_loop_spec _ _ _ rows) by done. rewrite Hscan. cbn [fst snd finish].
  destruct (run15_facts (concat pss) conn14 w) as (_ & _ & Hlog & Hdbs & _).
  eexists. split; [done|]. split; [by apply sent_app|]. split; [done|].
  rewrite (cell16_spec _ (SqlTable hj_cols rows)); [done|].
  unfold store. by rewrite Hdbs.
Qed.

Lemma batch_aborts_on_page_without_table_witness :
  ∃ w',
    cell15 conn14 ([("html/1992", Sample.page1992)]
                   ++ ("html/short", SampleExtra.short_page)
                   :: [("html/1996", Sample.page1996)])
      (cell14 Sample.empty_world).2
    = (Raise IndexError, w')
    ∧ sent (cell14 Sample.empty_world).2
        (cell15 conn14 ([("html/1992", Sample.page1992)]
                        ++ ("html/short", SampleExtra.short_page)
                        :: [("html/1996", Sample.page1996)])
           (cell14 Sample.empty_world).2)
      = entries15 (concat [Sample.pairs1992])
    ∧ dbs w' = dbs (cell14 Sample.empty_world).2
    ∧ (cell16 w').1 = Ok [].
Proof.
  apply (batch_aborts_on_page_without_table [("html/1992", Sample.page1992)]
           [("html/1996", Sample.page1996)] ("html/short", SampleExtra.short_page)
           [Sample.pairs1992]).
  - vm_compute. reflexivity.
  - repeat constructor.
  - vm_compute. lia.
Defined.

(** ** White space *)

Lemma lstrip_first s c : first_char (lstrip s) = Some c → isspace c = false.
Proof.
  induction s as [|a s IH]; cbn; [done|].
  destruct (isspace a) eqn:E; [done|]. cbn. by intros [= <-].
Qed.

Lemma rstrip_first s c : first_char (rstrip s) = Some c → first_char s = Some c.
Proof.
  destruct s as [|a s]; cbn; [done|].
  destruct (rstrip s); [|done]. by destruct (isspace a).
Qed.

Lemma rstrip_last s c : last_char (rstrip s) = Some c → isspace c = false.
Proof.
  induction s as [|a s IH]; cbn [rstrip]; [done|].
  destruct (rstrip s) as [|b r] eqn:E.
  - destruct (isspace a) eqn:Ea; cbn; [done|]. by intros [= <-].
  - cbn [last_char] in *. destruct (last_char r) as [d|]; [done|].
    intros [= <-]. by apply IH.
Qed.

Lemma strip_trimmed s : trimmed (strip s).
Proof.
  split; intros c H.
  - by apply rstrip_first, lstrip_first in H.
  - by apply rstrip_last in H.
Qed.

Lemma lstrip_id s : (∀ c, first_char s = Some c → isspace c = false) → lstrip s = s.
Proof. destruct s as [|a s]; cbn; [done|]. intros H. by rewrite (H a). Qed.

Lemma rstrip_id s : (∀ c, last_char s = Some c → isspace c = false) → rstrip s = s.
Proof.
  induction s as [|a s IH]; cbn [rstrip last_char]; [done|]. intros H.
  destruct (last_char s) as [d|] eqn:E.
  - rewrite IH by done. destruct s; [done|]. done.
  - destruct s as [|b s]; [|cbn in E; by destruct (last_char s)].
    cbn. by rewrite (H a).
Qed.

Lemma strip_id s : trimmed s → strip s = s.
Proof. intros [H1 H2]. unfold strip. rewrite lstrip_id by done. by apply rstrip_id. Qed.

Lemma record15_trimmed tr p : record15 tr = Some p → trimmed p.1 ∧ trimmed p.2.
Proof.
  unfold record15. destruct (row_pair tr); [|done].
  intros [= <-]. split; apply strip_trimmed.
Qed.

Lemma scan_files_trimmed files :
  Forall (λ p, trimmed p.1 ∧ trimmed p.2) (scan_files files).1.
Proof.
  induction files as [|f files IH]; cbn [scan_files]; [constructor|].
  unfold file_records. destruct (table_at f.2 1) as [table|]; cbn; [|constructor].
  apply Forall_app. split; [|done].
  apply Forall_forall. intros p (tr & _ & Hrec)%list_elem_of_omap.
  by apply (record15_trimmed tr).
Qed.

(** X5: every INSERT that the loop of cell 15 sends binds two texts without
    white space at either end; stripping them again changes nothing. *)
Theorem cell15_sends_stripped_values (c : sqlite_connection)
    (html_files : list (string * node)) (w : world) (rows : list (list value)) :
  hj_rows c w rows →
  Forall (λ e, ∃ rank athlete,
            e.2 = [VStr rank; VStr athlete]
            ∧ trimmed rank ∧ trimmed athlete
            ∧ strip rank = rank ∧ strip athlete = athlete)
    (sent w (cell15_loop c html_files w)).
Proof.
  intros Hc. rewrite (cell15_loop_sent _ _ _ _ Hc). unfold entries15.
  apply Forall_fmap. eapply Forall_impl; [apply scan_files_trimmed|].
  intros [r a] [H1 H2]. exists r, a. cbn. split; [done|].
  split; [done|]. split; [done|]. split; by apply strip_id.
Qed.

Lemma cell15_sends_stripped_values_witness :
  Forall (λ e, ∃ rank athlete,
            e.2 = [VStr rank; VStr athlete]
            ∧ trimmed rank ∧ trimmed athlete
            ∧ strip rank = rank ∧ strip athlete = athlete)
    (sent (cell14 Sample.empty_world).2
       (cell15_loop conn14 [("html/padded", SampleExtra.padded_page)]
          (cell14 Sample.empty_world).2)).
Proof.
  apply (cell15_sends_stripped_values conn14 _ _ []).
  vm_compute. reflexivity.
Defined.

(** ** The order of the keys *)

Lemma build_keys_snoc d ps k v :
  dict_keys (build d (ps ++ [(k, v)]))
  = if bool_decide (k ∈ dict_keys (build d ps))
    then dict_keys (build d ps) else dict_keys (build d ps) ++ [k].
Proof. unfold build. rewrite foldl_app. cbn. apply dict_keys_set. Qed.

Lemma build_keys_order ps :
  dict_keys (build [] ps) = reverse (remove_dups (reverse ps.*1)).
Proof.
  induction ps as [|[k v] ps IH] using rev_ind; [done|].
  rewrite build_keys_snoc, fmap_app, reverse_app. cbn [fmap list_fmap fst reverse rev_append].
  change (rev_append [] [k]) with [k]. cbn [app remove_dups].
  rewrite IH.
  assert (k ∈ reverse (remove_dups (reverse ps.*1)) ↔ k ∈ reverse ps.*1) as Hin.
  { by rewrite elem_of_reverse, elem_of_remove_dups. }
  case_bool_decide as H1; destruct (decide_rel elem_of k (reverse ps.*1)) as [H2|H2].
  - done.
  - by apply Hin in H1.
  - by apply Hin in H2.
  - by rewrite reverse_cons.
Qed.

(** X11: the keys of the JSON object stand in the order in which the medal
    labels first occur in the table: the list of the labels with every
    later repetition removed. *)
Theorem json_keys_in_order_of_first_row (table : list node) (d : pydict)
    (ps : list (string * string)) :
  cell4 table = Ok d →
  Forall2 (λ tr p, medal_of tr = Ok p.1 ∧ athlete_of tr = Ok p.2)
    (xpath [Child "tr"] table) ps →
  dict_keys d = reverse (remove_dups (reverse ps.*1)).
Proof.
  intros (qs & Hqs & ->)%cell4_Ok Hps.
  assert (Forall2 (λ tr p, row_pair tr = Ok p) (xpath [Child "tr"] table) ps) as Hp.
  { eapply Forall2_impl; [exact Hps|]. intros tr p. by rewrite row_pair_inv. }
  rewrite (Forall2_functional _ _ _ Hp Hqs). apply build_keys_order.
Qed.

Lemma json_keys_in_order_of_first_row_witness :
  dict_keys [("Gold", "Mark Boswell"); ("Silver", "Ben Challenger")]
  = reverse (remove_dups (reverse Sample.pairs1996.*1)).
Proof.
  apply (json_keys_in_order_of_first_row Sample.table1996).
  - vm_compute. reflexivity.
  - repeat constructor.
Defined.

(** ** Cell 2 as a check of the table *)

Lemma xpath_app path l1 l2 : xpath path (l1 ++ l2) = xpath path l1 ++ xpath path l2.
Proof.
  unfold xpath. revert l1 l2. induction path as [|st path IH]; intros l1 l2; [done|].
  cbn [foldl]. by rewrite bind_app, IH.
Qed.

Lemma xpath_cons st path tr : xpath (st :: path) [tr] = xpath path (eval_step st tr).
Proof. unfold xpath. cbn [foldl mbind list_bind]. by rewrite app_nil_r. Qed.

Lemma extract_text_first_td path tr :
  ∃ more, extract_text (Child "td" :: path) tr
          = extract_text (ChildAt "td" 1 :: path) tr ++ more.
Proof.
  unfold extract_text. rewrite !xpath_cons. cbn [eval_step drop].
  set (tds := filter (λ c, tag_is "td" c) (children tr)).
  exists (xpath path (drop 1 tds) ≫= text_children).
  by rewrite <- bind_app, <- xpath_app, take_drop.
Qed.

Lemma extract_text_second_td path tr :
  ∃ less more, extract_text (Child "td" :: path) tr
               = less ++ extract_text (ChildAt "td" 2 :: path) tr ++ more.
Proof.
  unfold extract_text. rewrite !xpath_cons. cbn [eval_step].
  set (tds := filter (λ c, tag_is "td" c) (children tr)).
  exists (xpath path (take 1 tds) ≫= text_children),
    (xpath path (drop 1 (drop 1 tds)) ≫= text_children).
  by rewrite <- !bind_app, <- !xpath_app, !take_drop.
Qed.

Lemma cell2_row_medal tr m :
  py_index (extract_text [ChildAt "td" 1; Child "b"] tr) 0 = Ok m →
  medal_of tr = Ok m.
Proof.
  unfold medal_of. destruct (extract_text_first_td [Child "b"] tr) as [more ->].
  rewrite !py_index_head. by destruct (extract_text _ tr).
Qed.

Lemma cell2_row_athlete tr a :
  py_index (extract_text [ChildAt "td" 2; Child "a"] tr) 0 = Ok a →
  ∃ a', athlete_of tr = Ok a'.
Proof.
  unfold athlete_of.
  destruct (extract_text_second_td [Child "a"] tr) as (less & more & ->).
  intros H. apply py_index_nonempty.
  assert (extract_text [ChildAt "td" 2; Child "a"] tr ≠ []) as Hne.
  { apply py_index_nonempty. eauto. }
  intros [_ [? _]%app_eq_nil]%app_eq_nil. done.
Qed.

Lemma cell2_loop trs out printed :
  for_each (λ out tr,
      medal ← py_index (extract_text [ChildAt "td" 1; Child "b"] tr) 0;
      athlete ← py_index (extract_text [ChildAt "td" 2; Child "a"] tr) 0;
      Ok (out ++ [(medal, athlete)])) trs out = Ok printed →
  ∃ new, printed = out ++ new
         ∧ Forall2 (λ tr pr,
               py_index (extract_text [ChildAt "td" 1; Child "b"] tr) 0 = Ok pr.1
               ∧ py_index (extract_text [ChildAt "td" 2; Child "a"] tr) 0 = Ok pr.2)
             trs new.
Proof.
  revert out. induction trs as [|tr trs IH]; intros out; cbn [for_each].
  - intros [= <-]. exists []. by rewrite app_nil_r.
  - destruct (py_index (extract_text [ChildAt "td" 1; Child "b"] tr) 0) as [m|] eqn:Em;
      [|done].
    destruct (py_index (extract_text [ChildAt "td" 2; Child "a"] tr) 0) as [a|] eqn:Ea;
      [|done].
    cbn. intros (new & -> & Hnew)%IH. exists ((m, a) :: new).
    rewrite <- app_assoc. split; [done|]. by constructor.
Qed.

Lemma cell2_rows_pairs trs (new : list (string * string)) :
  Forall2 (λ tr pr,
      py_index (extract_text [ChildAt "td" 1; Child "b"] tr) 0 = Ok pr.1
      ∧ py_index (extract_text [ChildAt "td" 2; Child "a"] tr) 0 = Ok pr.2)
    trs new →
  ∃ ps, Forall2 (λ tr p, row_pair tr = Ok p) trs ps
        ∧ Forall2 (λ pr p, pr.1 = p.1) new ps.
Proof.
  induction 1 as [|tr pr trs new [Hm Ha] _ (ps & IH1 & IH2)].
  - exists []. split; constructor.
  - apply cell2_row_medal in Hm. apply cell2_row_athlete in Ha as [a' Ha].
    exists ((pr.1, a') :: ps). split; constructor; try done.
    by apply row_pair_inv.
Qed.

(** X6: cell 2 reads the medal from the first [td] and the athlete from the
    second.  When it goes through, cells 4 and 7 go through as well, and
    the medals of the CSV rows are the medals that cell 2 printed, row for
    row. *)
Theorem cell2_success_guards_cells (response : node) (table : list node)
    (printed : list (string * string)) :
  cell2 response = Ok (table, printed) →
  ∃ d rows,
    cell4 table = Ok d
    ∧ cell7 table = Ok rows
    ∧ Forall2 (λ pr r, ∃ athlete, r = [pr.1; athlete]) printed rows.
Proof.
  unfold cell2. destruct (table_at response 1) as [t|]; cbn; [|done].
  destruct (for_each _ _ _) as [pr|] eqn:E; cbn; [|done].
  intros [= <- <-]. apply cell2_loop in E as (new & -> & Hnew). cbn [app].
  destruct (cell2_rows_pairs _ _ Hnew) as (ps & Hps & Hm).
  exists (build [] ps), ((λ p, [p.1; p.2]) <$> ps).
  split; [apply cell4_Ok; eauto|]. split; [apply cell7_Ok; eauto|].
  apply Forall2_fmap_r. eapply Forall2_impl; [exact Hm|].
  intros pr p ->. eauto.
Qed.

Lemma cell2_success_guards_cells_witness :
  ∃ d rows,
    cell4 Sample.table1992 = Ok d
    ∧ cell7 Sample.table1992 = Ok rows
    ∧ Forall2 (λ pr r, ∃ athlete, r = [pr.1; athlete]) Sample.pairs1992 rows.
Proof.
  apply (cell2_success_guards_cells Sample.page1992).
  vm_compute. reflexivity.
Defined.

(** ** The heights (cells 17 and 19) *)

Lemma insert19_rows w tr rows :
  store "1992_jump_results.db" w !! "heights" = Some (SqlTable heights_cols rows) →
  store "1992_jump_results.db" (insert19 w tr) !! "heights"
  = Some (SqlTable heights_cols
            (rows ++ [VInt (next_rowid (SqlTable heights_cols rows)) :: record19 tr])).
Proof.
  intros Hr. unfold insert19.
  rewrite (insert_commit_store _ _ _ _ _ _ _ Hr), lookup_insert_eq. done.
Qed.

Lemma foldl_insert19_payload trs w rows :
  store "1992_jump_results.db" w !! "heights" = Some (SqlTable heights_cols rows) →
  ∃ new, store "1992_jump_results.db" (foldl insert19 w trs) !! "heights"
         = Some (SqlTable heights_cols (rows ++ new))
         ∧ tail <$> new = record19 <$> trs.
Proof.
  revert w rows. induction trs as [|tr trs IH]; intros w rows Hw; cbn [foldl].
  - exists []. by rewrite app_nil_r.
  - destruct (IH _ _ (insert19_rows _ tr _ Hw)) as (new & Hn & Ht).
    eexists (_ :: new). rewrite Hn, <- app_assoc. split; [done|].
    cbn. by rewrite Ht.
Qed.

(** X7: on a page with a fourth table, cell 19 inserts and commits one row
    for every [tr] of that table, in order, with NULL for a field that is
    not there; a [tr] without [td] children is stored as three NULLs.  The
    [except] branch is never taken. *)
Theorem heights_one_insert_per_row (response : node) (table1 : list node)
    (w : world) (rows : list (list value)) :
  store "1992_jump_results.db" w !! "heights" = Some (SqlTable heights_cols rows) →
  table_at response 3 = Ok table1 →
  ∃ w' new,
    cell19 conn18 response w = (Ok conn18, w')
    ∧ rows_of "1992_jump_results.db" "heights" w' = rows ++ new
    ∧ tail <$> new = record19 <$> xpath [Child "tr"] table1
    ∧ ∀ tr, tr ∈ xpath [Child "tr"] table1 →
        Forall (λ c, ¬ tag_is "td" c) (children tr) →
        [VNone; VNone; VNone] ∈ tail <$> new.
Proof.
  intros Hw Ht. unfold cell19, mbind, M_bind, lift. rewrite Ht.
  rewrite cell19_loop by (by eexists).
  destruct (foldl_insert19_payload (xpath [Child "tr"] table1) _ _ Hw)
    as (new & Hn & Htl).
  eexists _, new. split; [done|]. split; [unfold rows_of; by rewrite Hn|].
  split; [done|]. intros tr Hin Htd. rewrite Htl.
  apply list_elem_of_fmap. exists tr. by rewrite record19_header.
Qed.

Lemma heights_one_insert_per_row_witness :
  ∃ w' new,
    cell19 conn18 Sample.page1992 (cell18 Sample.empty_world).2 = (Ok conn18, w')
    ∧ rows_of "1992_jump_results.db" "heights" w' = [] ++ new
    ∧ tail <$> new
      = record19 <$> xpath [Child "tr"]
          [Element "tbody"
             [Sample.header_row;
              Sample.row [Sample.td [Text "1"]; Sample.td [Sample.link "Tim Forsyth"];
                          Sample.td [Sample.bold "2.16"]];
              Sample.row [Sample.td [Text "3"]; Sample.td [Sample.link "Xu Xiaodong"];
                          Sample.td [Sample.bold "2.16"]]]]
    ∧ [VNone; VNone; VNone] ∈ tail <$> new.
Proof.
  destruct (heights_one_insert_per_row Sample.page1992
              [Element "tbody"
                 [Sample.header_row;
                  Sample.row [Sample.td [Text "1"]; Sample.td [Sample.link "Tim Forsyth"];
                              Sample.td [Sample.bold "2.16"]];
                  Sample.row [Sample.td [Text "3"]; Sample.td [Sample.link "Xu Xiaodong"];
                              Sample.td [Sample.bold "2.16"]]]]
              (cell18 Sample.empty_world).2 [])
    as (w' & new & H1 & H2 & H3 & H4).
  - vm_compute. reflexivity.
  - vm_compute. reflexivity.
  - exists w', new. split; [exact H1|]. split; [exact H2|]. split; [exact H3|].
    apply (H4 Sample.header_row).
    + left.
    + repeat constructor; vm_compute; exact id.
Defined.

Lemma cell17_loop trs printed :
  for_each cell17_row trs printed = Ok (printed ++ (record19 <$> trs)).
Proof.
  revert printed. induction trs as [|tr trs IH]; intros printed; cbn [for_each].
  - by rewrite app_nil_r.
  - change (cell17_row printed tr) with (Ok (printed ++ [record19 tr])).
    change (for_each cell17_row trs (printed ++ [record19 tr])
            = Ok (printed ++ (record19 <$> tr :: trs))).
    rewrite IH. cbn [fmap list_fmap]. by rewrite <- app_assoc.
Qed.

(** X8: cell 17 prints one line for every [tr] of the fourth table, and the
    lines are the values that cell 19 binds in its INSERTs, in the same
    order. *)
Theorem cell17_prints_what_cell19_binds (response : node) (table1 : list node)
    (w : world) :
  heights_ready w →
  table_at response 3 = Ok table1 →
  ∃ printed,
    cell17 response = Ok printed
    ∧ length printed = length (xpath [Child "tr"] table1)
    ∧ sent w (cell19 conn18 response w) = (λ line, (cell19_insert, line)) <$> printed.
Proof.
  intros Hw Ht. exists (record19 <$> xpath [Child "tr"] table1).
  split; [|split].
  - unfold cell17. rewrite Ht. cbn [mbind outcome_bind]. apply cell17_loop.
  - by rewrite length_fmap.
  - destruct (cell19_inserts_every_row _ _ _ Hw Ht) as (w' & _ & ->).
    by rewrite <- list_fmap_compose.
Qed.

Lemma cell17_prints_what_cell19_binds_witness :
  ∃ printed,
    cell17 Sample.page1992 = Ok printed
    ∧ length printed = 3
    ∧ sent (cell18 Sample.empty_world).2
        (cell19 conn18 Sample.page1992 (cell18 Sample.empty_world).2)
      = (λ line, (cell19_insert, line)) <$> printed.
Proof.
  destruct (cell17_prints_what_cell19_binds Sample.page1992
              [Element "tbody"
                 [Sample.header_row;
                  Sample.row [Sample.td [Text "1"]; Sample.td [Sample.link "Tim Forsyth"];
                              Sample.td [Sample.bold "2.16"]];
                  Sample.row [Sample.td [Text "3"]; Sample.td [Sample.link "Xu Xiaodong"];
                              Sample.td [Sample.bold "2.16"]]]]
              (cell18 Sample.empty_world).2)
    as (printed & H1 & H2 & H3).
  - exists []. vm_compute. reflexivity.
  - vm_compute. reflexivity.
  - exists printed. split; [exact H1|]. split; [exact H2|exact H3].
Defined.

(** X9: on a page with fewer than four tables cells 17 and 19 raise
    [IndexError] and cell 19 sends nothing; on a page with fewer than two,
    cell 2 raises [IndexError] and so does the loop of cell 15 for that
    file. *)
Theorem short_page_raises (path : string) (response : node)
    (c : sqlite_connection) (w : world) :
  length (xpath_tables response) ≤ 3 →
  cell17 response = Raise IndexError
  ∧ cell19 c response w = (Raise IndexError, w)
  ∧ (length (xpath_tables response) ≤ 1 →
     cell2 response = Raise IndexError
     ∧ cell15_file c (path, response) w = (Raise IndexError, w)).
Proof.
  intros H3%table_at_short. split; [|split].
  - unfold cell17. by rewrite H3.
  - unfold cell19, mbind, M_bind, lift. by rewrite H3.
  - intros H1%table_at_short. split.
    + unfold cell2. by rewrite H1.
    + unfold cell15_file, mbind, M_bind, lift. cbn [snd]. by rewrite H1.
Qed.

Lemma short_page_raises_witness :
  cell17 SampleExtra.short_page = Raise IndexError
  ∧ cell19 conn18 SampleExtra.short_page Sample.empty_world
    = (Raise IndexError, Sample.empty_world)
  ∧ (length (xpath_tables SampleExtra.short_page) ≤ 1 →
     cell2 SampleExtra.short_page = Raise IndexError
     ∧ cell15_file conn18 ("html/short", SampleExtra.short_page) Sample.empty_world
       = (Raise IndexError, Sample.empty_world)).
Proof.
  apply (short_page_raises "html/short" SampleExtra.short_page conn18 Sample.empty_world).
  vm_compute. lia.
Defined.

(** ** A database without the table *)



(** ** Identities *)

(** X12: one iteration of cell 11 appends one row to [results].  Its
    identity is one more than the largest identity in the table, negative
    or not, and 1 in an empty table; so it is larger than the identity of
    every row that is there, and where there is room for one more row it
    stays within 2^63 - 1. *)
Theorem new_identity_exceeds_existing (tr : node) (medal athlete : string)
    (w : world) (rows : list (list value)) :
  store "1992_results.db" w !! "results" = Some (SqlTable results_cols rows) →
  has_room 1 rows = true →
  medal_of tr = Ok medal →
  athlete_of tr = Ok athlete →
  ∃ w' id,
    cell11_body conn11 tr w = (Ok conn11, w')
    ∧ rows_of "1992_results.db" "results" w'
      = rows ++ [[VInt id; VStr medal; VStr athlete]]
    ∧ (∀ r, r ∈ rows → (rowid_of results_cols r < id)%Z)
    ∧ ((rows = [] ∧ id = 1%Z)
       ∨ ∃ r, r ∈ rows ∧ id = (rowid_of results_cols r + 1)%Z)
    ∧ (id ≤ 2 ^ 63 - 1)%Z.
Proof.
  intros Hw Hroom Hm Ha.
  assert (row_pair tr = Ok (medal, athlete)) as Hp by (by apply row_pair_inv).
  rewrite (cell11_body_ok _ _ _ (ex_intro _ rows Hw) Hp).
  eexists _, _. split; [done|]. split.
  { unfold rows_of. by rewrite (insert11_rows _ _ _ Hw). }
  split; [by intros r; apply next_rowid_gt|]. split.
  - destruct rows as [|r0 rows'] eqn:E; [by left|]. rewrite <- E. right.
    apply next_rowid_attained. by subst.
  - pose proof (has_room_next _ _ Hroom). lia.
Qed.

Lemma new_identity_exceeds_existing_witness :
  ∃ w' id,
    cell11_body conn11 (Sample.medal_row "Bronze" "C") SampleExtra.negative_world
    = (Ok conn11, w')
    ∧ rows_of "1992_results.db" "results" w'
      = [[VInt (-5); VStr "Gold"; VStr "A"]] ++ [[VInt id; VStr "Bronze"; VStr "C"]]
    ∧ (∀ r, r ∈ [[VInt (-5); VStr "Gold"; VStr "A"]] →
         (rowid_of results_cols r < id)%Z)
    ∧ (([[VInt (-5); VStr "Gold"; VStr "A"]] = [] ∧ id = 1%Z)
       ∨ ∃ r, r ∈ [[VInt (-5); VStr "Gold"; VStr "A"]]
              ∧ id = (rowid_of results_cols r + 1)%Z)
    ∧ (id ≤ 2 ^ 63 - 1)%Z.
Proof.
  apply (new_identity_exceeds_existing (Sample.medal_row "Bronze" "C")).
  - vm_compute. reflexivity.
  - vm_compute. reflexivity.
  - vm_compute. reflexivity.
  - vm_compute. reflexivity.
Defined.

(** ** What a cell leaves alone *)

#[global] Instance touches_db_only_refl path : Reflexive (touches_db_only path).
Proof. by intros w. Qed.

#[global] Instance touches_db_only_trans path : Transitive (touches_db_only path).
Proof.
  intros w1 w2 w3 [H1 H2] [H3 H4]. split; [congruence|].
  intros p Hp. by rewrite H4, H2.
Qed.

Section loop_state_invariant.
Context {A S : Type} (P : S → Prop) (R : world → world → Prop).
Context `{!Reflexive R, !Transitive R}.
Context (body : S → A → M S).
Hypothesis body_inv : ∀ s x w,
  P s → R w (body s x w).2 ∧ ∀ s', (body s x w).1 = Ok s' → P s'.

Lemma for_each_M_inv l s w :
  P s →
  R w (for_each_M body l s w).2 ∧ ∀ s', (for_each_M body l s w).1 = Ok s' → P s'.
Proof.
  revert s w. induction l as [|x l IH]; intros s w Hs; cbn [for_each_M].
  - split; [reflexivity|]. by intros s' [= <-].
  - unfold mbind, M_bind. destruct (body_inv s x w Hs) as [Hr Hp].
    destruct (body s x w) as [[s1|e] w1]; cbn [fst snd] in *; [|by split].
    destruct (IH s1 w1 (Hp _ eq_refl)) as [Hr' Hp'].
    split; [by etrans|done].
Qed.

End loop_state_invariant.

Lemma set_store_touches path db w : touches_db_only path w (set_store path db w).
Proof.
  split; [done|]. intros p Hp. unfold set_store. cbn. by rewrite lookup_insert_ne.
Qed.

Lemma execute_touches c sql params w :
  touches_db_only (conn_path c) w (execute c sql params w).2
  ∧ ∀ c' r, (execute c sql params w).1 = Ok (c', r) → conn_path c' = conn_path c.
Proof.
  unfold execute. cbv zeta.
  destruct (parse_sql sql) as [[ine name cols|name cols vals|name]|]; [| | |by split].
  - destruct (_ !! _).
    + destruct ine; (split; [done|]); [by intros ? ? [= <- _]|done].
    + destruct params; [|by split]. destruct (conn_txn c).
      * split; [done|]. by intros ? ? [= <- _].
      * split; [apply (set_store_touches _ _ (log_stmt sql [] w))|].
        by intros ? ? [= <- _].
  - destruct (execute_insert _ _ _ _ _); (split; [done|]); [|done].
    by intros ? ? [= <- _].
  - destruct (_ !! _); [|by split]. destruct params; (split; [done|]); [|done].
    by intros ? ? [= <- _].
Qed.

Lemma commit_touches c w :
  touches_db_only (conn_path c) w (commit c w).2
  ∧ ∀ c', (commit c w).1 = Ok c' → conn_path c' = conn_path c.
Proof.
  unfold commit. destruct (conn_txn c).
  - split; [apply set_store_touches|]. by intros ? [= <-].
  - split; [done|]. by intros ? [= <-].
Qed.

Lemma execute_commit_touches path c sql params w :
  conn_path c = path →
  touches_db_only path w (('(c, _) ← execute c sql params; commit c) w).2
  ∧ ∀ c', (('(c, _) ← execute c sql params; commit c) w).1 = Ok c' →
          conn_path c' = path.
Proof.
  intros <-. unfold mbind, M_bind.
  destruct (execute_touches c sql params w) as [H1 H2].
  destruct (execute c sql params w) as [[[c1 r]|e] w1]; cbn [fst snd] in *; [|by split].
  specialize (H2 _ _ eq_refl).
  destruct (commit_touches c1 w1) as [H3 H4]. rewrite H2 in H3, H4.
  destruct (commit c1 w1) as [[c2|e] w2]; cbn [fst snd] in *.
  - split; [by etrans|]. intros ? [= <-]. by apply H4.
  - split; [by etrans|done].
Qed.

Lemma cell11_body_touches c tr w :
  conn_path c = "1992_results.db" →
  touches_db_only "1992_results.db" w (cell11_body c tr w).2
  ∧ ∀ c', (cell11_body c tr w).1 = Ok c' → conn_path c' = "1992_results.db".
Proof.
  intros Hc. unfold cell11_body. unfold mbind at 1, M_bind at 1, lift at 1.
  destruct (medal_of tr) as [medal|]; [|by split].
  unfold mbind at 1, M_bind at 1, lift at 1.
  destruct (athlete_of tr) as [athlete|]; [|by split].
  by apply execute_commit_touches.
Qed.

Ltac frame_done :=
  unfold mret, M_ret; cbn [fst snd]; split; [done|intros ? ?; by simplify_eq].

Lemma cell15_row_touches c tr w :
  conn_path c = "results.db" →
  touches_db_only "results.db" w (cell15_row c tr w).2
  ∧ ∀ c', (cell15_row c tr w).1 = Ok c' → conn_path c' = "results.db".
Proof.
  intros Hc. unfold cell15_row, try_except. fold_fields tr.
  unfold mbind, M_bind, lift, mret, M_ret.
  destruct (medal_of tr) as [rank|e]; cbv beta iota; [|case_decide; frame_done].
  destruct (athlete_of tr) as [athlete|e]; cbv beta iota; [|case_decide; frame_done].
  destruct (execute_touches c cell15_insert [VStr (strip rank); VStr (strip athlete)] w)
    as [H1 H2]. rewrite Hc in H1, H2.
  destruct (execute c cell15_insert _ w) as [[[c1 r]|e] w1]; cbv beta iota;
    cbn [fst snd] in *.
  - split; [done|]. intros ? [= <-]. by eapply H2.
  - case_decide; frame_done.
Qed.

Lemma cell15_loop_touches c files w :
  conn_path c = "results.db" →
  touches_db_only "results.db" w (cell15_loop c files w).2
  ∧ ∀ c', (cell15_loop c files w).1 = Ok c' → conn_path c' = "results.db".
Proof.
  apply (for_each_M_inv (λ c, conn_path c = "results.db")
           (touches_db_only "results.db")). clear.
  intros c f w Hc. unfold cell15_file, mbind, M_bind, lift.
  destruct (table_at f.2 1) as [table|]; [|by split].
  by apply (for_each_M_inv (λ c, conn_path c = "results.db")
              (touches_db_only "results.db") _ cell15_row_touches).
Qed.

Lemma cell19_row_touches c tr w :
  conn_path c = "1992_jump_results.db" →
  touches_db_only "1992_jump_results.db" w (cell19_row c tr w).2
  ∧ ∀ c', (cell19_row c tr w).1 = Ok c' → conn_path c' = "1992_jump_results.db".
Proof.
  intros Hc. unfold cell19_row, try_except. cbv zeta.
  fold (record19 tr).
  destruct (execute_commit_touches _ c cell19_insert (record19 tr) w Hc) as [H1 H2].
  set (r := (execute c cell19_insert (record19 tr) ≫= _) w) in *.
  destruct r as [[c1|e] w1]; cbn [fst snd] in *; [done|].
  case_decide; frame_done.
Qed.

(** X13: a cell changes its own target only.  Cells 5 and 8 leave the
    databases, the log and every other file; cells 11, 15 and 19 leave the
    files and every database file but their own. *)
Theorem cells_touch_only_their_target (table : list node)
    (html_files : list (string * node)) (response : node)
    (scrapped_data : pydict) (rows : list (list string))
    (conn connection : sqlite_connection) (w : world) :
  conn_path conn = "results.db" →
  conn_path connection = "1992_jump_results.db" →
  touches_file_only "1992_results.json" w (cell5 scrapped_data w).2
  ∧ touches_file_only "1992_results.csv" w (cell8 rows w).2
  ∧ touches_db_only "1992_results.db" w (cell11 table w).2
  ∧ touches_db_only "results.db" w (cell15 conn html_files w).2
  ∧ touches_db_only "1992_jump_results.db" w (cell19 connection response w).2.
Proof.
  intros Hc15 Hc19.
  split. { split; [done|]. split; [done|]. intros p Hp. cbn. by rewrite lookup_insert_ne. }
  split. { split; [done|]. split; [done|]. intros p Hp. cbn. by rewrite lookup_insert_ne. }
  split.
  { unfold cell11, connect, mbind at 1, M_bind at 1, mret, M_ret.
    by apply (for_each_M_inv (λ c, conn_path c = "1992_results.db")
                (touches_db_only "1992_results.db") _ cell11_body_touches). }
  split.
  { unfold cell15. unfold mbind at 1, M_bind at 1.
    destruct (cell15_loop_touches conn html_files w Hc15) as [H1 H2].
    destruct (cell15_loop conn html_files w) as [[c1|e] w1]; cbn [fst snd] in *; [|done].
    specialize (H2 _ eq_refl). unfold mbind, M_bind.
    destruct (commit_touches c1 w1) as [H3 _]. rewrite H2 in H3.
    destruct (commit c1 w1) as [[c2|e] w2]; cbn [fst snd] in *; by etrans. }
  unfold cell19, mbind, M_bind, lift.
  destruct (table_at response 3) as [table1|]; [|done].
  by apply (for_each_M_inv (λ c, conn_path c = "1992_jump_results.db")
              (touches_db_only "1992_jump_results.db") _ cell19_row_touches).
Qed.

Lemma cells_touch_only_their_target_witness :
  touches_db_only "1992_results.db" SampleExtra.sparse_world
    (cell11 Sample.table1992 SampleExtra.sparse_world).2
  ∧ touches_db_only "results.db" SampleExtra.sparse_world
      (cell15 conn14 Sample.html_files SampleExtra.sparse_world).2.
Proof.
  destruct (cells_touch_only_their_target Sample.table1992 Sample.html_files
              Sample.page1992 [] [] conn14 conn18 SampleExtra.sparse_world)
    as (_ & _ & H1 & H2 & _).
  - reflexivity.
  - reflexivity.
  - split; [exact H1|exact H2].
Defined.
